(** * simple_scraper.py: the Sedgwick County scraper, embedded and checked

    The development follows [src/simple_scraper.py].  Python [str] values are
    lists of Unicode code points, the parsed HTML document is the tree that
    BeautifulSoup hands to the scraper, dictionaries are insertion-ordered
    association lists, and the two public methods run in a small monad that
    threads the HTTP session and the standard output and carries raised
    exceptions. *)

From Stdlib Require Import List NArith Bool Arith Lia String Ascii.
Import ListNotations.

Set Implicit Arguments.

(** ** Python strings *)

Module PyStr.

(** A character is a Unicode code point; a [str] is a sequence of them. *)
Definition char := N.
Definition str := list char.

(** String literals of the source, written as Rocq strings. *)
Definition lit (s : string) : str := map N_of_ascii (list_ascii_of_string s).

(** [a == b]. *)
Fixpoint str_eqb (a b : str) : bool :=
  match a, b with
  | [], [] => true
  | x :: a', y :: b' => (x =? y)%N && str_eqb a' b'
  | _, _ => false
  end.

(** [str.isspace] on one character (the table of [Py_UNICODE_ISSPACE]);
    [str.split()] and [str.strip()] use it. *)
Definition isspace (c : char) : bool :=
  ((0x09 <=? c) && (c <=? 0x0D) || (0x1C <=? c) && (c <=? 0x20)
   || (c =? 0x85) || (c =? 0xA0) || (c =? 0x1680)
   || (0x2000 <=? c) && (c <=? 0x200A)
   || (c =? 0x2028) || (c =? 0x2029) || (c =? 0x202F)
   || (c =? 0x205F) || (c =? 0x3000))%N.

(** Code points of category Nd (Unicode 14.0, the table of CPython 3.11):
    what [\d] matches in a [str] pattern. *)
Definition unicode_decimal_ranges : list (N * N) :=
  [ (0x30, 0x39); (0x660, 0x669); (0x6f0, 0x6f9); (0x7c0, 0x7c9);
    (0x966, 0x96f); (0x9e6, 0x9ef); (0xa66, 0xa6f); (0xae6, 0xaef);
    (0xb66, 0xb6f); (0xbe6, 0xbef); (0xc66, 0xc6f); (0xce6, 0xcef);
    (0xd66, 0xd6f); (0xde6, 0xdef); (0xe50, 0xe59); (0xed0, 0xed9);
    (0xf20, 0xf29); (0x1040, 0x1049); (0x1090, 0x1099); (0x17e0, 0x17e9);
    (0x1810, 0x1819); (0x1946, 0x194f); (0x19d0, 0x19d9); (0x1a80, 0x1a89);
    (0x1a90, 0x1a99); (0x1b50, 0x1b59); (0x1bb0, 0x1bb9); (0x1c40, 0x1c49);
    (0x1c50, 0x1c59); (0xa620, 0xa629); (0xa8d0, 0xa8d9); (0xa900, 0xa909);
    (0xa9d0, 0xa9d9); (0xa9f0, 0xa9f9); (0xaa50, 0xaa59); (0xabf0, 0xabf9);
    (0xff10, 0xff19); (0x104a0, 0x104a9); (0x10d30, 0x10d39);
    (0x11066, 0x1106f); (0x110f0, 0x110f9); (0x11136, 0x1113f);
    (0x111d0, 0x111d9); (0x112f0, 0x112f9); (0x11450, 0x11459);
    (0x114d0, 0x114d9); (0x11650, 0x11659); (0x116c0, 0x116c9);
    (0x11730, 0x11739); (0x118e0, 0x118e9); (0x11950, 0x11959);
    (0x11c50, 0x11c59); (0x11d50, 0x11d59); (0x11da0, 0x11da9);
    (0x16a60, 0x16a69); (0x16ac0, 0x16ac9); (0x16b50, 0x16b59);
    (0x1d7ce, 0x1d7ff); (0x1e140, 0x1e149); (0x1e2f0, 0x1e2f9);
    (0x1e950, 0x1e959); (0x1fbf0, 0x1fbf9) ]%N.

Definition isdecimal (c : char) : bool :=
  existsb (fun r => (fst r <=? c) && (c <=? snd r))%N unicode_decimal_ranges.

(** [text.split()]: the maximal runs of non-whitespace characters. *)
Fixpoint split (s : str) : list str :=
  match s with
  | [] => []
  | c :: r =>
      if isspace c then split r
      else match r with
           | [] => [[c]]
           | c' :: _ =>
               if isspace c' then [c] :: split r
               else match split r with
                    | w :: ws => (c :: w) :: ws
                    | [] => [[c]]
                    end
           end
  end.

(** [sep.join(parts)]. *)
Fixpoint join (sep : str) (parts : list str) : str :=
  match parts with
  | [] => []
  | [p] => p
  | p :: rest => p ++ sep ++ join sep rest
  end.

Fixpoint lstrip (s : str) : str :=
  match s with
  | c :: r => if isspace c then lstrip r else s
  | [] => []
  end.

(** [text.strip()]. *)
Definition strip (s : str) : str := rev (lstrip (rev (lstrip s))).

(** Concatenation of a list of strings, [''.join(parts)]. *)
Definition concat_str (parts : list str) : str := List.concat parts.

End PyStr.
Import PyStr.

(** ** The regular expressions the scraper compiles *)

Module Re.

(** Simple lower-case mapping, as far as it can send a code point to a
    character of an ASCII pattern: A-Z, U+0130 (to i) and U+212A (to k).
    Every literal of the scraper's patterns is ASCII. *)
Definition unicode_tolower (c : char) : char :=
  (if (0x41 <=? c) && (c <=? 0x5A) then c + 32
   else if c =? 0x130 then 0x69
   else if c =? 0x212A then 0x6B
   else c)%N.

(** The extra case-insensitive equivalents that [re] adds to a lower-case
    literal: dotless i for i, long s for s. *)
Definition ignorecase_fixes (lo : char) : list char :=
  (if lo =? 0x69 then [0x131] else if lo =? 0x73 then [0x17F] else [])%N.

(** One literal character of a pattern against one character of the text. *)
Definition literal_match (ignorecase : bool) (p c : char) : bool :=
  if ignorecase then
    let lo := unicode_tolower p in
    let x := unicode_tolower c in
    (x =? lo)%N || existsb (N.eqb x) (ignorecase_fixes lo)
  else (c =? p)%N.

(** Patterns made of literals and alternation: [GridView], [grid|result],
    [label], [Charges]. *)
Inductive pattern :=
| Lit (s : str)
| Alt (p q : pattern).

Record regex := compile { re_pattern : pattern; re_I : bool }.

(** The literal [p] matches at the start of [s]. *)
Fixpoint lit_prefix (ic : bool) (p s : str) : bool :=
  match p, s with
  | [], _ => true
  | _ :: _, [] => false
  | a :: p', c :: s' => literal_match ic a c && lit_prefix ic p' s'
  end.

Fixpoint match_here (ic : bool) (p : pattern) (s : str) : bool :=
  match p with
  | Lit l => lit_prefix ic l s
  | Alt a b => match_here ic a s || match_here ic b s
  end.

(** [regex.search(s)] as a truth value: the pattern matches at some
    position of [s]. *)
Fixpoint search (r : regex) (s : str) : bool :=
  match_here (re_I r) (re_pattern r) s
  || match s with
     | [] => false
     | _ :: s' => search r s'
     end.

(** The longest run of decimal digits at the start of [s]: [\d+], greedy. *)
Fixpoint take_digits (s : str) : str :=
  match s with
  | c :: r => if isdecimal c then c :: take_digits r else []
  | [] => []
  end.

Fixpoint strip_prefix (p s : str) : option str :=
  match p, s with
  | [], _ => Some s
  | _ :: _, [] => None
  | a :: p', c :: s' => if (c =? a)%N then strip_prefix p' s' else None
  end.

(** [InmateID=(\d+)] tried at the start of [s]; the result is group 1. *)
Definition match_InmateID_here (s : str) : option str :=
  match strip_prefix (lit "InmateID=") s with
  | Some rest =>
      match take_digits rest with
      | [] => None
      | ds => Some ds
      end
  | None => None
  end.

(** [re.search(r'InmateID=(\d+)', s)]: the leftmost match, [None] when
    there is none; [Some g] carries [group(1)]. *)
Fixpoint search_InmateID (s : str) : option str :=
  match match_InmateID_here s with
  | Some g => Some g
  | None =>
      match s with
      | [] => None
      | _ :: s' => search_InmateID s'
      end
  end.

End Re.

(** ** Dictionaries *)

Module Dict.

(** A Python [dict] with [str] keys: insertion-ordered, one entry per key. *)
Definition dict (V : Type) := list (str * V).

Fixpoint get {V} (d : dict V) (k : str) : option V :=
  match d with
  | [] => None
  | (k', v) :: r => if str_eqb k k' then Some v else get r k
  end.

(** [d[k] = v]: an existing key keeps its place, a new one goes last. *)
Fixpoint set {V} (d : dict V) (k : str) (v : V) : dict V :=
  match d with
  | [] => [(k, v)]
  | (k', v') :: r =>
      if str_eqb k k' then (k, v) :: r else (k', v') :: set r k v
  end.

Definition contains {V} (d : dict V) (k : str) : bool :=
  match get d k with Some _ => true | None => false end.

End Dict.

(** ** The parsed document, as BeautifulSoup presents it *)

Module Bs4.

(** The classes of string nodes that [html.parser] trees contain. *)
Inductive string_class :=
| NavigableString | CData | Comment | Declaration | Doctype
| ProcessingInstruction | Script | Stylesheet | TemplateString
| RubyTextString | RubyParenthesisString.

(** A node of the tree: a tag with its attribute dictionary and children,
    or a string.  Attribute values are kept as the text of the attribute;
    the multi-valued [class] is split on whitespace where it is matched. *)
#[warnings="-register-all"] Inductive PageElement :=
| Tag (name : str) (attrs : Dict.dict str) (contents : list PageElement)
| Text (cls : string_class) (s : str).

(** What the scraper holds when it holds a tag: the node and the siblings
    that follow it under its parent. *)
Record Element := element { node : PageElement; next_siblings : list PageElement }.

(** The [BeautifulSoup] object of a document: the root, without siblings. *)
Definition soup_of (root : PageElement) : Element := element root [].

Definition is_tag (e : PageElement) : bool :=
  match e with Tag _ _ _ => true | Text _ _ => false end.

Definition tag_name (e : Element) : str :=
  match node e with Tag n _ _ => n | Text _ _ => [] end.

Definition tag_attrs (e : Element) : Dict.dict str :=
  match node e with Tag _ a _ => a | Text _ _ => [] end.

(** [tag.get(key, default)]. *)
Definition get (e : Element) (key default : str) : str :=
  match Dict.get (tag_attrs e) key with Some v => v | None => default end.

(** Every node below [e] in document order, each with its later siblings. *)
Fixpoint descendants (e : PageElement) : list Element :=
  match e with
  | Tag _ _ cs =>
      (fix walk (l : list PageElement) : list Element :=
         match l with
         | [] => []
         | c :: rest => element c rest :: descendants c ++ walk rest
         end) cs
  | Text _ _ => []
  end.

(** All strings at or below a node, in document order. *)
Fixpoint all_strings (e : PageElement) : list (string_class * str) :=
  match e with
  | Text cls s => [(cls, s)]
  | Tag _ _ cs => flat_map all_strings cs
  end.

Definition string_class_eqb (a b : string_class) : bool :=
  match a, b with
  | NavigableString, NavigableString | CData, CData | Comment, Comment
  | Declaration, Declaration | Doctype, Doctype
  | ProcessingInstruction, ProcessingInstruction | Script, Script
  | Stylesheet, Stylesheet | TemplateString, TemplateString
  | RubyTextString, RubyTextString
  | RubyParenthesisString, RubyParenthesisString => true
  | _, _ => false
  end.

(** The string classes that count as the text of a tag of this name. *)
Definition interesting_string_types (name : str) : list string_class :=
  if str_eqb name (lit "rt") then [RubyTextString]
  else if str_eqb name (lit "rp") then [RubyParenthesisString]
  else if str_eqb name (lit "style") then [Stylesheet]
  else if str_eqb name (lit "script") then [Script]
  else if str_eqb name (lit "template") then [TemplateString]
  else [NavigableString; CData].

(** [tag.text]: the interesting strings below the tag, concatenated. *)
Definition text (e : Element) : str :=
  match node e with
  | Tag n _ cs =>
      concat_str
        (map snd
           (filter (fun p => existsb (string_class_eqb (fst p))
                                (interesting_string_types n))
              (flat_map all_strings cs)))
  | Text _ s => s
  end.

(** A value given for an attribute in a search: a string to equal or a
    compiled pattern to find. *)
Inductive matcher :=
| MString (s : str)
| MRegex (r : Re.regex).

Definition matches_value (m : matcher) (v : str) : bool :=
  match m with
  | MString s => str_eqb v s
  | MRegex r => Re.search r v
  end.

(** Of the attributes the scraper searches by ([id], [class], [name]) only
    [class] is held as a list of values. *)
Definition multi_valued (attr : str) : bool := str_eqb attr (lit "class").

(** One attribute criterion against a tag's attributes: a missing
    attribute never matches; a list of values matches when one value does
    or when the values joined by spaces do. *)
Definition matches_attr (attrs : Dict.dict str) (crit : str * matcher) : bool :=
  match Dict.get attrs (fst crit) with
  | None => false
  | Some raw =>
      if multi_valued (fst crit) then
        let values := split raw in
        existsb (matches_value (snd crit)) values
        || matches_value (snd crit) (join (lit " ") values)
      else matches_value (snd crit) raw
  end.

Definition search_tag (name : str) (criteria : list (str * matcher))
    (e : Element) : bool :=
  match node e with
  | Tag n a _ => str_eqb n name && forallb (matches_attr a) criteria
  | Text _ _ => false
  end.

(** [tag.find_all(name, attrs)]: the matching tags below [e], in document
    order. *)
Definition find_all (e : Element) (name : str)
    (criteria : list (str * matcher)) : list Element :=
  filter (search_tag name criteria) (descendants (node e)).

(** [tag.find(name, attrs)]: the first of them, or [None]. *)
Definition find (e : Element) (name : str)
    (criteria : list (str * matcher)) : option Element :=
  hd_error (find_all e name criteria).

Fixpoint first_tag (l : list PageElement) : option Element :=
  match l with
  | [] => None
  | Tag n a cs :: rest => Some (element (Tag n a cs) rest)
  | Text _ _ :: rest => first_tag rest
  end.

(** [tag.find_next_sibling()]: the next sibling that is a tag. *)
Definition find_next_sibling (e : Element) : option Element :=
  first_tag (next_siblings e).

End Bs4.
Import Bs4.

(** ** Exceptions, the world and the monad of the public methods *)

(** A raised exception: its class name, [str(e)], and whether its class
    derives from [Exception].  The errors of [requests], of the HTML parser
    and of a failed write derive from it; [KeyboardInterrupt] and
    [SystemExit] do not, and an [except Exception] clause lets them pass. *)
Record BaseException :=
  exception { exc_class : str; exc_str : str; is_Exception : bool }.

Inductive Result (A : Type) :=
| Ok (a : A)
| Raise (e : BaseException).
Arguments Ok {A} a.
Arguments Raise {A} e.

(** JSON-like values stored in the detail mapping. *)
Inductive pyval :=
| PStr (s : str)
| PList (l : list str).

(** An inmate summary is a dictionary with string values. *)
Definition summary := Dict.dict str.

Module SedgwickScraper.

(** *** Parsing helpers: no I/O *)

(** [_clean_text]. *)
Definition _clean_text (text : str) : str :=
  match text with
  | [] => lit "N/A"
  | _ => strip (join (lit " ") (split text))
  end.

(** [_get_form_data]. *)
Definition _get_form_data (soup : Element) : Dict.dict str :=
  let form_data := [] in
  let form_data :=
    match find soup (lit "input") [(lit "name", MString (lit "__VIEWSTATE"))] with
    | Some viewstate =>
        Dict.set form_data (lit "__VIEWSTATE") (get viewstate (lit "value") [])
    | None => form_data
    end in
  let form_data :=
    match find soup (lit "input") [(lit "name", MString (lit "__VIEWSTATEGENERATOR"))] with
    | Some viewstate_gen =>
        Dict.set form_data (lit "__VIEWSTATEGENERATOR") (get viewstate_gen (lit "value") [])
    | None => form_data
    end in
  let form_data :=
    match find soup (lit "input") [(lit "name", MString (lit "__EVENTVALIDATION"))] with
    | Some event_val =>
        Dict.set form_data (lit "__EVENTVALIDATION") (get event_val (lit "value") [])
    | None => form_data
    end in
  form_data.

Definition re_GridView := Re.compile (Re.Lit (lit "GridView")) true.
Definition re_grid_result :=
  Re.compile (Re.Alt (Re.Lit (lit "grid")) (Re.Lit (lit "result"))) true.
Definition re_label := Re.compile (Re.Lit (lit "label")) true.
Definition re_Charges := Re.compile (Re.Lit (lit "Charges")) true.

(** The table that [_parse_results] works on. *)
Definition results_table (soup : Element) : option Element :=
  match find soup (lit "table") [(lit "id", MRegex re_GridView)] with
  | Some table => Some table
  | None => find soup (lit "table") [(lit "class", MRegex re_grid_result)]
  end.

(** [self._clean_text(cells[i].text) if len(cells) > i else 'N/A']. *)
Definition cell_or_NA (cells : list Element) (i : nat) : str :=
  match nth_error cells i with
  | Some c => _clean_text (text c)
  | None => lit "N/A"
  end.

(** The inmate-id step: the first link of the first cell, its [href],
    the pattern. *)
Definition attach_inmate_id (cells : list Element) (inmate : summary) : summary :=
  match cells with
  | [] => inmate
  | cell0 :: _ =>
      match find cell0 (lit "a") [] with
      | Some link =>
          match Dict.get (tag_attrs link) (lit "href") with
          | Some href =>
              match Re.search_InmateID href with
              | Some g => Dict.set inmate (lit "inmate_id") g
              | None => inmate
              end
          | None => inmate
          end
      | None => inmate
      end
  end.

(** The body of the loop over rows: the summary of one row, when the row
    has at least three cells. *)
Definition parse_row (row : Element) : option summary :=
  let cells := find_all row (lit "td") [] in
  if 3 <=? List.length cells then
    let inmate :=
      [ (lit "name", cell_or_NA cells 0);
        (lit "booking_number", cell_or_NA cells 1);
        (lit "booking_date", cell_or_NA cells 2);
        (lit "age", cell_or_NA cells 3);
        (lit "gender", cell_or_NA cells 4);
        (lit "race", cell_or_NA cells 5);
        (lit "facility", lit "Sedgwick County Jail");
        (lit "source", lit "sedgwick_county") ] in
    Some (attach_inmate_id cells inmate)
  else None.

(** [_parse_results]. *)
Definition _parse_results (soup : Element) : list summary :=
  match results_table soup with
  | Some table =>
      let rows := tl (find_all table (lit "tr") []) in
      fold_left
        (fun inmates row =>
           match parse_row row with
           | Some inmate => inmates ++ [inmate]
           | None => inmates
           end)
        rows []
  | None => []
  end.

(** The loop over the label elements of [_parse_inmate_details]. *)
Definition add_label (details : Dict.dict pyval) (label : Element) : Dict.dict pyval :=
  let label_text := _clean_text (text label) in
  match find_next_sibling label with
  | Some value_elem => Dict.set details label_text (PStr (_clean_text (text value_elem)))
  | None => details
  end.

(** The loop over the rows of the charges table. *)
Definition add_charge (charges : list str) (row : Element) : list str :=
  let cells := find_all row (lit "td") [] in
  match cells with
  | [] => charges
  | _ => charges ++ [join (lit " ") (map (fun c => _clean_text (text c)) cells)]
  end.

(** [_parse_inmate_details]. *)
Definition _parse_inmate_details (soup : Element) : Dict.dict pyval :=
  let labels := find_all soup (lit "span") [(lit "class", MRegex re_label)] in
  let details := fold_left add_label labels [] in
  match find soup (lit "table") [(lit "id", MRegex re_Charges)] with
  | Some charges_table =>
      let rows := tl (find_all charges_table (lit "tr") []) in
      let charges := fold_left add_charge rows [] in
      Dict.set details (lit "charges") (PList charges)
  | None => details
  end.

(** *** The public methods: HTTP, parsing of the response, try/except *)

Section Methods.

(** The state of [requests.Session] (its cookies), the body of a
    response, and the three calls out of the scraper.  Each may raise. *)
Variable Session : Type.
Variable Content : Type.
Variable session_get :
  str -> Dict.dict str -> nat -> Session -> Session * Result Content.
Variable session_post :
  str -> Dict.dict str -> Dict.dict str -> nat -> Session -> Session * Result Content.
Variable BeautifulSoup : Content -> Result PageElement.

(** Writing one line to the standard output, given the lines written so
    far: it succeeds or raises (a closed or broken stream, an encoding
    error). *)
Variable stdout_write : list str -> str -> Result unit.

Record World := world { session : Session; stdout : list str }.

Definition M (A : Type) := World -> World * Result A.

Definition ret {A} (a : A) : M A := fun w => (w, Ok a).

Definition bind {A B} (c : M A) (k : A -> M B) : M B :=
  fun w =>
    match c w with
    | (w', Ok a) => k a w'
    | (w', Raise e) => (w', Raise e)
    end.

(** [try: body  except Exception as e: handler(e)]: an exception whose
    class does not derive from [Exception] is not caught. *)
Definition try_except {A} (body : M A) (handler : BaseException -> M A) : M A :=
  fun w =>
    match body w with
    | (w', Ok a) => (w', Ok a)
    | (w', Raise e) => if is_Exception e then handler e w' else (w', Raise e)
    end.

(** [print(line)]: the line is written, or the write raises and the output
    stays as it was. *)
Definition print (line : str) : M unit :=
  fun w =>
    match stdout_write (stdout w) line with
    | Ok _ => (world (session w) (stdout w ++ [line]), Ok tt)
    | Raise e => (w, Raise e)
    end.

Definition lift {A} (r : Result A) : M A := fun w => (w, r).

Definition http_get (url : str) (headers : Dict.dict str) (timeout : nat) : M Content :=
  fun w =>
    let (s', r) := session_get url headers timeout (session w) in
    (world s' (stdout w), r).

Definition http_post (url : str) (data headers : Dict.dict str) (timeout : nat) : M Content :=
  fun w =>
    let (s', r) := session_post url data headers timeout (session w) in
    (world s' (stdout w), r).

Notation "x <- c ;; k" := (bind c (fun x => k))
  (at level 61, c at next level, right associativity).

Definition base_url : str := lit "https://ssc.sedgwickcounty.org/inmatesearch".

Definition headers : Dict.dict str :=
  [ (lit "User-Agent",
     lit "Mozilla/5.0 (Windows NT 10.0; Win64; x64) AppleWebKit/537.36") ].

(** The form that [search_inmates] posts. *)
Definition search_form (soup : Element) (last_name first_name booking_number : str)
    : Dict.dict str :=
  let form_data := _get_form_data soup in
  let form_data := Dict.set form_data (lit "txtLastName") last_name in
  let form_data := Dict.set form_data (lit "txtFirstName") first_name in
  let form_data := Dict.set form_data (lit "txtBookingNumber") booking_number in
  let form_data := Dict.set form_data (lit "btnSearch") (lit "Search") in
  form_data.

(** The [try] block of [search_inmates]. *)
Definition search_inmates_try (last_name first_name booking_number : str)
    : M (list summary) :=
  let search_url := base_url ++ lit "/SearchResults.aspx" in
  response <- http_get base_url headers 15 ;;
  soup <- lift (BeautifulSoup response) ;;
  let form_data :=
    search_form (soup_of soup) last_name first_name booking_number in
  search_response <- http_post search_url form_data headers 20 ;;
  results_soup <- lift (BeautifulSoup search_response) ;;
  let inmates := _parse_results (soup_of results_soup) in
  ret inmates.

(** [search_inmates]. *)
Definition search_inmates (last_name first_name booking_number : str)
    : M (list summary) :=
  try_except
    (search_inmates_try last_name first_name booking_number)
    (fun e => _ <- print (lit "Search error: " ++ exc_str e) ;; ret []).

(** The [try] block of [get_inmate_details]. *)
Definition get_inmate_details_try (inmate_id : str)
    : M (option (Dict.dict pyval)) :=
  let detail_url := base_url ++ lit "/InmateDetail.aspx?InmateID=" ++ inmate_id in
  response <- http_get detail_url headers 15 ;;
  soup <- lift (BeautifulSoup response) ;;
  let details := _parse_inmate_details (soup_of soup) in
  ret (Some details).

(** [get_inmate_details]; [None] is Python's [None]. *)
Definition get_inmate_details (inmate_id : str)
    : M (option (Dict.dict pyval)) :=
  try_except
    (get_inmate_details_try inmate_id)
    (fun e => _ <- print (lit "Detail error: " ++ exc_str e) ;; ret None).

End Methods.

End SedgwickScraper.
Import SedgwickScraper.

(** ** Properties named by the specification *)

Module Spec.

(** No leading whitespace, no trailing whitespace, and no two whitespace
    characters in a row. *)
Fixpoint no_double_space (s : str) : bool :=
  match s with
  | c :: (c' :: _) as r => negb (isspace c && isspace c') && no_double_space r
  | _ => true
  end.

Definition starts_with_space (s : str) : bool :=
  match s with c :: _ => isspace c | [] => false end.

Definition normalized (s : str) : bool :=
  negb (starts_with_space s) && negb (starts_with_space (rev s))
  && no_double_space s.

(** A word: a non-empty string without whitespace. *)
Definition is_word (w : str) : bool :=
  match w with
  | [] => false
  | _ => forallb (fun c => negb (isspace c)) w
  end.

(** A string with a character that is not whitespace. *)
Definition has_visible (s : str) : bool := existsb (fun c => negb (isspace c)) s.

(** The summaries of a list of rows, in order: what the loop of
    [_parse_results] accumulates. *)
Definition summaries_of_rows (rows : list Element) : list summary :=
  flat_map (fun row => match parse_row row with Some i => [i] | None => [] end) rows.

(** A row counts when it has at least three [td] cells. *)
Definition has_three_cells (row : Element) : bool :=
  3 <=? List.length (find_all row (lit "td") []).

(** The charge string of one row. *)
Definition charge_of_row (row : Element) : str :=
  join (lit " ") (map (fun c => _clean_text (text c)) (find_all row (lit "td") [])).

(** The three hidden inputs of the form. *)
Definition token_names : list str :=
  [lit "__VIEWSTATE"; lit "__VIEWSTATEGENERATOR"; lit "__EVENTVALIDATION"].

Definition token_input (soup : Element) (key : str) : option Element :=
  find soup (lit "input") [(lit "name", MString key)].

(** The two lookups of [results_table], as predicates on one element. *)
Definition table_by_id (e : Element) : bool :=
  search_tag (lit "table") [(lit "id", MRegex re_GridView)] e.

Definition table_by_class (e : Element) : bool :=
  search_tag (lit "table") [(lit "class", MRegex re_grid_result)] e.

(** The label lookup and the charges lookup of [_parse_inmate_details]. *)
Definition label_span (e : Element) : bool :=
  search_tag (lit "span") [(lit "class", MRegex re_label)] e.

Definition charges_table (e : Element) : bool :=
  search_tag (lit "table") [(lit "id", MRegex re_Charges)] e.

Definition class_matches_label (e : Element) : bool :=
  is_tag (node e) && matches_attr (tag_attrs e) (lit "class", MRegex re_label).

(** The [href] of a link holds [InmateID=] and digits. *)
Definition href_inmate_id (link : Element) : option str :=
  match Dict.get (tag_attrs link) (lit "href") with
  | Some href => Re.search_InmateID href
  | None => None
  end.

(** *** The wording of the specification, where it departs from the code *)

(** The results table as the specification words it: the id matches
    "grid", else the class matches "grid" or "result". *)
Definition re_grid := Re.compile (Re.Lit (lit "grid")) true.

Definition spec_results_table (soup : Element) : option Element :=
  match find soup (lit "table") [(lit "id", MRegex re_grid)] with
  | Some table => Some table
  | None => find soup (lit "table") [(lit "class", MRegex re_grid_result)]
  end.

(** The label elements as the specification words them: elements of any
    tag whose class matches "label". *)
Definition spec_label_elements (soup : Element) : list Element :=
  filter class_matches_label (descendants (node soup)).

(** The first cell contains some link whose href holds the identifier. *)
Definition spec_cell_has_id_link (cell : Element) : bool :=
  existsb (fun a => match href_inmate_id a with Some _ => true | None => false end)
    (find_all cell (lit "a") []).

End Spec.
Import Spec.

(** ** Concrete documents and servers *)

Module Examples.

Local Open Scope string_scope.

Definition txt (s : string) : PageElement := Text NavigableString (lit s).

Definition el (name : string) (attrs : list (string * string))
    (contents : list PageElement) : PageElement :=
  Tag (lit name) (map (fun p => (lit (fst p), lit (snd p))) attrs) contents.

Definition document (contents : list PageElement) : Element :=
  soup_of (el "[document]" [] contents).

Definition three_cells : list PageElement :=
  [ el "td" [] [txt "DOE, JOHN"]; el "td" [] [txt "B100"]; el "td" [] [txt "01/02/2024"] ].

(** A results page whose table has the id "grid". *)
Definition page_id_grid : Element :=
  document
    [ el "table" [("id", "grid")]
        [ el "tr" [] [ el "th" [] [txt "Name"] ];
          el "tr" [] three_cells ] ].

(** A results page as the county serves it: the id of the table holds
    "GridView"; one row has three cells, one has two. *)
Definition page_gridview : PageElement :=
  el "[document]" []
    [ el "table" [("id", "ctl00_GridView1")]
        [ el "tr" [] [ el "th" [] [txt "Name"] ];
          el "tr" []
            [ el "td" [] [ el "a" [("href", "InmateDetail.aspx?InmateID=4711")] [txt " DOE,  JOHN "] ];
              el "td" [] [txt "B100"]; el "td" [] [txt "01/02/2024"] ];
          el "tr" [] [ el "td" [] [txt "x"]; el "td" [] [txt "y"] ] ] ].

(** A results page whose only data row has three cells, the first a [th]. *)
Definition page_th_row : PageElement :=
  el "[document]" []
    [ el "table" [("id", "ctl00_GridView1")]
        [ el "tr" [] [ el "th" [] [txt "Name"]; el "th" [] [txt "Booking"];
                       el "th" [] [txt "Date"] ];
          el "tr" [] [ el "th" [] [txt "DOE, JOHN"]; el "td" [] [txt "B100"];
                       el "td" [] [txt "01/02/2024"] ] ] ].

(** A results page whose only data row has three cells, the third holding a
    table of one row of three cells. *)
Definition page_nested_table : PageElement :=
  el "[document]" []
    [ el "table" [("id", "ctl00_GridView1")]
        [ el "tr" [] [ el "th" [] [txt "Name"] ];
          el "tr" []
            [ el "td" [] [txt "DOE, JOHN"]; el "td" [] [txt "B100"];
              el "td" []
                [ el "table" []
                    [ el "tr" []
                        [ el "td" [] [txt "a"]; el "td" [] [txt "b"];
                          el "td" [] [txt "c"] ] ] ] ] ] ].

(** A search page with no hidden input at all. *)
Definition page_no_tokens : Element :=
  document [ el "form" [] [ el "input" [("name", "txtLastName")] [] ] ].

(** A search page with [__VIEWSTATE] only, without a value attribute. *)
Definition page_viewstate_only : PageElement :=
  el "[document]" [] [ el "form" [] [ el "input" [("name", "__VIEWSTATE")] [] ] ].

(** A row whose first cell has two links; the second carries the id. *)
Definition row_two_links : Element :=
  element
    (el "tr" []
       [ el "td" []
           [ el "a" [("name", "top")] [txt "DOE, JOHN"];
             el "a" [("href", "InmateDetail.aspx?InmateID=4711")] [txt "details"] ];
         el "td" [] [txt "B100"]; el "td" [] [txt "01/02/2024"] ])
    [].

(** A row whose first cell has one link, with the id. *)
Definition row_one_link : Element :=
  element
    (el "tr" []
       [ el "td" [] [ el "a" [("href", "InmateDetail.aspx?InmateID=4711&tab=1")] [txt "DOE, JOHN"] ];
         el "td" [] [txt "B100"]; el "td" [] [txt "01/02/2024"] ])
    [].


(** A detail page: one label, and a charges table with a header row and
    two rows of cells. *)
Definition name_label : PageElement := el "span" [("class", "label")] [txt "Name:"].

Definition name_value : PageElement := el "span" [] [txt "JOHN DOE"].

Definition charges_header_two : PageElement :=
  el "table" [("id", "tblCharges")]
    [ el "tr" [] [ el "th" [] [txt "Charge"] ];
      el "tr" [] [ el "td" [] [txt "THEFT"]; el "td" [] [txt "21-5801"] ];
      el "tr" [] [ el "td" [] [txt "BURGLARY"] ] ].

Definition detail_header_two_rows : PageElement :=
  el "[document]" [] [ name_label; name_value; charges_header_two ].

(** A detail page whose label is a [div]. *)
Definition detail_div_label : Element :=
  document
    [ el "div" [("class", "label")] [txt "Name:"];
      el "div" [] [txt "JOHN DOE"] ].

(** A detail page whose charges row has a cell of one space between two
    cells of text. *)
Definition detail_blank_cell : Element :=
  document
    [ el "table" [("id", "tblCharges")]
        [ el "tr" [] [ el "th" [] [txt "Charge"] ];
          el "tr" [] [ el "td" [] [txt "THEFT"]; el "td" [] [txt " "]; el "td" [] [txt "FELONY"] ] ] ].

(** A detail page with neither labels nor a charges table. *)
Definition detail_empty : PageElement :=
  el "[document]" [] [ el "p" [] [txt "No record."] ].

(** Servers: the session counts the requests; the body of a response is
    the document it parses to. *)
Definition serve (reply : Result PageElement)
    : str -> Dict.dict str -> nat -> nat -> nat * Result PageElement :=
  fun _ _ _ n => (S n, reply).

Definition serve_post (reply : Result PageElement)
    : str -> Dict.dict str -> Dict.dict str -> nat -> nat -> nat * Result PageElement :=
  fun _ _ _ _ n => (S n, reply).

Definition parse_ok (c : PageElement) : Result PageElement := Ok c.

Definition timeout : BaseException :=
  exception (lit "ReadTimeout") (lit "Read timed out.") true.

Definition keyboard_interrupt : BaseException :=
  exception (lit "KeyboardInterrupt") [] false.

Definition broken_pipe : BaseException :=
  exception (lit "BrokenPipeError") (lit "[Errno 32] Broken pipe") true.

(** A standard output that takes every line, and one that is broken. *)
Definition stdout_ok : list str -> str -> Result unit := fun _ _ => Ok tt.

Definition stdout_broken : list str -> str -> Result unit :=
  fun _ _ => Raise broken_pipe.

Definition start : World nat := world 0 [].

End Examples.

(** ** The HTTP routes over the scraper *)

(** A JSON document, as [jsonify] serialises it. *)
#[warnings="-register-all"] Inductive json :=
| JString (s : str)
| JNumber (n : nat)
| JArray (items : list json)
| JObject (members : list (str * json)).

Module App.

(** What a route returns: the JSON body and the HTTP status. *)
Record Response := response { body : json; status_code : nat }.

(** [jsonify(value)] returned alone answers 200;
    [jsonify(value), code] answers [code]. *)
Definition jsonify (value : json) : Response := response value 200.

Definition with_status (r : Response) (code : nat) : Response :=
  response (body r) code.

Definition json_of_summary (inmate : summary) : json :=
  JObject (map (fun kv => (fst kv, JString (snd kv))) inmate).

Definition json_of_pyval (v : pyval) : json :=
  match v with
  | PStr s => JString s
  | PList l => JArray (map JString l)
  end.

Definition json_of_details (details : Dict.dict pyval) : json :=
  JObject (map (fun kv => (fst kv, json_of_pyval (snd kv))) details).

(** [request.args.get(key, default)]. *)
Definition args_get (args : Dict.dict str) (key default : str) : str :=
  match Dict.get args key with Some v => v | None => default end.

(** The truth value of a string: it is not empty. *)
Definition truthy (s : str) : bool :=
  match s with [] => false | _ => true end.

(** [any(values)]. *)
Definition any (values : list str) : bool := existsb truthy values.

(** The truth value of what [get_inmate_details] returns: [None] and the
    empty mapping are false. *)
Definition details_truthy (details : option (Dict.dict pyval)) : bool :=
  match details with
  | None => false
  | Some [] => false
  | Some (_ :: _) => true
  end.

(** A member of a JSON object. *)
Definition member (j : json) (key : str) : option json :=
  match j with
  | JObject members => Dict.get members key
  | _ => None
  end.

Section Routes.

Variable Session : Type.
Variable Content : Type.
Variable session_get :
  str -> Dict.dict str -> nat -> Session -> Session * Result Content.
Variable session_post :
  str -> Dict.dict str -> Dict.dict str -> nat -> Session -> Session * Result Content.
Variable BeautifulSoup : Content -> Result PageElement.
Variable stdout_write : list str -> str -> Result unit.

(** [api_search], on the query arguments of the request. *)
Definition api_search (args : Dict.dict str) : M Session Response :=
  let last_name := args_get args (lit "last_name") [] in
  let first_name := args_get args (lit "first_name") [] in
  let booking_number := args_get args (lit "booking_number") [] in
  if negb (any [last_name; first_name; booking_number]) then
    ret (with_status
           (jsonify
              (JObject
                 [ (lit "status", JString (lit "error"));
                   (lit "message",
                    JString (lit "Please provide at least one search parameter"));
                   (lit "inmates", JArray []) ]))
           400)
  else
    try_except
      (bind
         (search_inmates session_get session_post BeautifulSoup stdout_write
            last_name first_name booking_number)
         (fun inmates =>
            ret (jsonify
                   (JObject
                      [ (lit "status", JString (lit "success"));
                        (lit "count", JNumber (List.length inmates));
                        (lit "inmates", JArray (map json_of_summary inmates));
                        (lit "source",
                         JString (lit "Sedgwick County Sheriff - Official Website")) ]))))
      (fun e =>
         ret (with_status
                (jsonify
                   (JObject
                      [ (lit "status", JString (lit "error"));
                        (lit "message", JString (exc_str e));
                        (lit "inmates", JArray []) ]))
                500)).

(** [api_details], on the id of the route. *)
Definition api_details (inmate_id : str) : M Session Response :=
  try_except
    (bind
       (get_inmate_details session_get BeautifulSoup stdout_write inmate_id)
       (fun details =>
          if details_truthy details then
            ret (jsonify
                   (JObject
                      [ (lit "status", JString (lit "success"));
                        (lit "details",
                         match details with
                         | Some d => json_of_details d
                         | None => JObject []
                         end) ]))
          else
            ret (with_status
                   (jsonify
                      (JObject
                         [ (lit "status", JString (lit "error"));
                           (lit "message", JString (lit "Inmate not found")) ]))
                   404)))
    (fun e =>
       ret (with_status
              (jsonify
                 (JObject
                    [ (lit "status", JString (lit "error"));
                      (lit "message", JString (exc_str e)) ]))
              500)).

End Routes.

End App.

(** * Facts *)

Unset Implicit Arguments.

(** ** Strings and dictionaries *)

Lemma str_eqb_eq (a b : str) : str_eqb a b = true <-> a = b.
Proof.
  revert b; induction a as [|x a IH]; intros [|y b]; simpl; split;
    try congruence; try reflexivity.
  - intros H. apply andb_true_iff in H as [Hx Hab].
    apply N.eqb_eq in Hx. apply IH in Hab. congruence.
  - intros H. injection H as -> ->.
    rewrite N.eqb_refl. simpl. apply IH. reflexivity.
Qed.

Lemma str_eqb_refl (a : str) : str_eqb a a = true.
Proof. apply str_eqb_eq. reflexivity. Qed.

Lemma str_eqb_neq (a b : str) : a <> b -> str_eqb a b = false.
Proof.
  intros H. destruct (str_eqb a b) eqn:E; [|reflexivity].
  apply str_eqb_eq in E. contradiction.
Qed.

Lemma get_set_same {V} (d : Dict.dict V) k v : Dict.get (Dict.set d k v) k = Some v.
Proof.
  induction d as [|[k' v'] d IH]; simpl.
  - now rewrite str_eqb_refl.
  - destruct (str_eqb k k') eqn:E; simpl.
    + now rewrite str_eqb_refl.
    + now rewrite E.
Qed.

Lemma get_set_other {V} (d : Dict.dict V) k k' v :
  k <> k' -> Dict.get (Dict.set d k v) k' = Dict.get d k'.
Proof.
  intros Hk. induction d as [|[k0 v0] d IH]; simpl.
  - rewrite str_eqb_neq; [reflexivity | congruence].
  - destruct (str_eqb k k0) eqn:E; simpl.
    + apply str_eqb_eq in E. subst k0.
      rewrite str_eqb_neq; [reflexivity | congruence].
    + destruct (str_eqb k' k0); [reflexivity | exact IH].
Qed.

(** ** Searching the tree *)

(** [find] returns the first match in document order. *)
Lemma hd_filter_first {A} (p : A -> bool) pre x post :
  p x = true -> (forall y, In y pre -> p y = false) ->
  hd_error (filter p (pre ++ x :: post)) = Some x.
Proof.
  intros Hx. induction pre as [|y pre IH]; simpl; intros Hpre.
  - now rewrite Hx.
  - rewrite (Hpre y (or_introl eq_refl)). apply IH.
    intros z Hz. apply Hpre. now right.
Qed.

Lemma filter_none {A} (p : A -> bool) l :
  (forall y, In y l -> p y = false) -> filter p l = [].
Proof.
  induction l as [|y l IH]; simpl; intros H; [reflexivity|].
  rewrite (H y (or_introl eq_refl)). apply IH. intros z Hz. apply H. now right.
Qed.

Lemma find_first soup name criteria pre t post :
  descendants (node soup) = pre ++ t :: post ->
  search_tag name criteria t = true ->
  (forall x, In x pre -> search_tag name criteria x = false) ->
  find soup name criteria = Some t.
Proof.
  intros Hd Ht Hpre. unfold find, find_all. rewrite Hd.
  now apply hd_filter_first.
Qed.

Lemma find_none soup name criteria :
  (forall x, In x (descendants (node soup)) -> search_tag name criteria x = false) ->
  find soup name criteria = None.
Proof.
  intros H. unfold find, find_all. now rewrite filter_none.
Qed.

(** What [find] returns satisfies the search and lies below the element. *)
Lemma find_some soup name criteria t :
  find soup name criteria = Some t ->
  In t (descendants (node soup)) /\ search_tag name criteria t = true.
Proof.
  unfold find, find_all. intros H.
  destruct (filter _ _) as [|y l] eqn:E; [discriminate|].
  injection H as ->.
  apply filter_In. rewrite E. now left.
Qed.

(** [regex.search] succeeds exactly when the pattern matches at the start of
    some suffix of the text. *)
Lemma search_iff r s :
  Re.search r s = true <->
  exists pre post, s = pre ++ post /\ Re.match_here (Re.re_I r) (Re.re_pattern r) post = true.
Proof.
  induction s as [|c s IH]; simpl.
  - rewrite orb_false_r. split.
    + intros H. now exists [], [].
    + intros (pre & post & E & H).
      symmetry in E. apply app_eq_nil in E as [-> ->]. exact H.
  - rewrite orb_true_iff, IH. split.
    + intros [H | (pre & post & -> & H)].
      * now exists [], (c :: s).
      * now exists (c :: pre), post.
    + intros ([|c' pre] & post & E & H); simpl in E.
      * left. now subst post.
      * right. injection E as -> ->. now exists pre, post.
Qed.

(** ** The loops *)

Lemma rows_loop rows acc :
  fold_left
    (fun inmates row =>
       match parse_row row with
       | Some inmate => inmates ++ [inmate]
       | None => inmates
       end) rows acc
  = acc ++ summaries_of_rows rows.
Proof.
  revert acc. induction rows as [|row rows IH]; intros acc; simpl.
  - now rewrite app_nil_r.
  - rewrite IH. destruct (parse_row row); simpl.
    + now rewrite <- app_assoc.
    + reflexivity.
Qed.

Lemma parse_results_table soup table :
  results_table soup = Some table ->
  _parse_results soup = summaries_of_rows (tl (find_all table (lit "tr") [])).
Proof.
  intros H. unfold _parse_results. rewrite H. apply rows_loop.
Qed.

Lemma parse_row_some row :
  parse_row row <> None <-> has_three_cells row = true.
Proof.
  unfold parse_row, has_three_cells.
  destruct (3 <=? _); split; congruence.
Qed.

Lemma summaries_count rows :
  List.length (summaries_of_rows rows) = List.length (filter has_three_cells rows).
Proof.
  induction rows as [|row rows IH]; simpl; [reflexivity|].
  rewrite length_app, IH.
  assert (E : parse_row row = None <-> has_three_cells row = false).
  { unfold parse_row, has_three_cells. destruct (3 <=? _); split; congruence. }
  destruct (has_three_cells row), (parse_row row); simpl; try reflexivity.
  - destruct E as [E _]. discriminate (E eq_refl).
  - destruct E as [_ E]. discriminate (E eq_refl).
Qed.

Lemma charges_loop rows acc :
  fold_left add_charge rows acc
  = acc ++ map charge_of_row
             (filter (fun row => match find_all row (lit "td") [] with
                                 | [] => false | _ => true end) rows).
Proof.
  revert acc. induction rows as [|row rows IH]; intros acc; simpl.
  - now rewrite app_nil_r.
  - rewrite IH. unfold add_charge, charge_of_row.
    destruct (find_all row (lit "td") []) eqn:E; simpl.
    + reflexivity.
    + rewrite E. now rewrite <- app_assoc.
Qed.

(** ** The public methods *)

Ltac red_world := cbv beta iota zeta delta [session stdout].

Section MethodFacts.

Variable Session : Type.
Variable Content : Type.
Variable session_get :
  str -> Dict.dict str -> nat -> Session -> Session * Result Content.
Variable session_post :
  str -> Dict.dict str -> Dict.dict str -> nat -> Session -> Session * Result Content.
Variable BeautifulSoup : Content -> Result PageElement.
Variable stdout_write : list str -> str -> Result unit.

Local Abbreviation search :=
  (search_inmates session_get session_post BeautifulSoup stdout_write).
Local Abbreviation search_try := (search_inmates_try session_get session_post BeautifulSoup).
Local Abbreviation details := (get_inmate_details session_get BeautifulSoup stdout_write).
Local Abbreviation details_try := (get_inmate_details_try session_get BeautifulSoup).

(** A [try]/[except Exception] whose handler prints and returns a value: a
    value of the body is returned; an exception of the body that derives
    from [Exception] is replaced by the handler's value when the line is
    written and by the exception of the write when it is not; any other
    exception of the body leaves the construct. *)
Lemma try_except_print {A} (body : M Session A) (prefix : str) (dflt : A) w :
  let run :=
    try_except body
      (fun e => bind (print stdout_write (prefix ++ exc_str e)) (fun _ => ret dflt)) in
  match body w with
  | (w', Ok a) => run w = (w', Ok a)
  | (w', Raise e) =>
      if is_Exception e then
        match stdout_write (stdout w') (prefix ++ exc_str e) with
        | Ok _ =>
            run w = (world (session w') (stdout w' ++ [prefix ++ exc_str e]), Ok dflt)
        | Raise e' => run w = (w', Raise e')
        end
      else run w = (w', Raise e)
  end.
Proof.
  unfold try_except, bind, print. simpl.
  destruct (body w) as [w' [a|e]]; [reflexivity|].
  destruct (is_Exception e); [|reflexivity].
  destruct (stdout_write (stdout w') (prefix ++ exc_str e)); reflexivity.
Qed.

(** The search when both requests and both parses succeed. *)
Lemma search_inmates_ok last_name first_name booking_number w s1 c1 d1 s2 c2 d2 :
  session_get base_url headers 15 (session w) = (s1, Ok c1) ->
  BeautifulSoup c1 = Ok d1 ->
  session_post (base_url ++ lit "/SearchResults.aspx")
    (search_form (soup_of d1) last_name first_name booking_number)
    headers 20 s1 = (s2, Ok c2) ->
  BeautifulSoup c2 = Ok d2 ->
  search last_name first_name booking_number w
  = (world s2 (stdout w), Ok (_parse_results (soup_of d2))).
Proof.
  intros Hget Hbs1 Hpost Hbs2.
  unfold search_inmates, try_except, search_inmates_try, bind, http_get,
    http_post, lift, ret.
  rewrite Hget. red_world. rewrite Hbs1. red_world. rewrite Hpost. red_world.
  rewrite Hbs2. reflexivity.
Qed.

(** The detail lookup when the request and the parse succeed. *)
Lemma get_inmate_details_ok inmate_id w s1 c d :
  session_get (base_url ++ lit "/InmateDetail.aspx?InmateID=" ++ inmate_id)
    headers 15 (session w) = (s1, Ok c) ->
  BeautifulSoup c = Ok d ->
  details inmate_id w
  = (world s1 (stdout w), Ok (Some (_parse_inmate_details (soup_of d)))).
Proof.
  intros Hget Hbs.
  unfold get_inmate_details, try_except, get_inmate_details_try, bind,
    http_get, lift, ret.
  rewrite Hget. red_world. rewrite Hbs. reflexivity.
Qed.

(** The [try] block of the detail lookup never yields [None]. *)
Lemma details_try_not_None inmate_id w w' :
  details_try inmate_id w <> (w', Ok None).
Proof.
  unfold get_inmate_details_try, bind, http_get, lift, ret.
  destruct (session_get _ _ _ _) as [s1 [c|e]]; simpl; [|congruence].
  destruct (BeautifulSoup c); congruence.
Qed.

(** What a method that wraps its [try] block this way does, by the outcome
    of the block. *)
Lemma guarded_raises_only {A} (body : M Session A) (prefix : str) (dflt : A) w w' e' :
  try_except body
    (fun e => bind (print stdout_write (prefix ++ exc_str e)) (fun _ => ret dflt)) w
  = (w', Raise e') ->
  (body w = (w', Raise e') /\ is_Exception e' = false)
  \/ exists e,
       body w = (w', Raise e) /\ is_Exception e = true
       /\ stdout_write (stdout w') (prefix ++ exc_str e) = Raise e'.
Proof.
  pose proof (try_except_print body prefix dflt w) as H. cbv zeta in H.
  intros Hrun. destruct (body w) as [w1 [a|e]].
  - rewrite H in Hrun. discriminate.
  - destruct (is_Exception e) eqn:Ee.
    + destruct (stdout_write (stdout w1) (prefix ++ exc_str e)) as [u|e1] eqn:Ew;
        rewrite H in Hrun; [discriminate|].
      injection Hrun as <- <-. right. exists e. now repeat split.
    + rewrite H in Hrun. injection Hrun as <- <-. left. now split.
Qed.

(** C1, as the code has it.  An exception raised in the [try] block of
    [search_inmates] (by the GET, the POST or the parsing of either
    response) whose class derives from [Exception] is caught; when the line
    that reports it is printed, the call returns the empty list, and
    [get_inmate_details] returns [None] in the same way.  An exception
    leaves either method only in two cases: it was raised in the [try] block
    and its class does not derive from [Exception], or it was raised by the
    [print] of the handler. *)
Theorem C1_caught_unless_print_fails_or_not_Exception :
  (forall last_name first_name booking_number w w1 e,
      search_try last_name first_name booking_number w = (w1, Raise e) ->
      is_Exception e = true ->
      stdout_write (stdout w1) (lit "Search error: " ++ exc_str e) = Ok tt ->
      search last_name first_name booking_number w
      = (world (session w1) (stdout w1 ++ [lit "Search error: " ++ exc_str e]), Ok []))
  /\ (forall last_name first_name booking_number w w' e',
         search last_name first_name booking_number w = (w', Raise e') ->
         (search_try last_name first_name booking_number w = (w', Raise e')
          /\ is_Exception e' = false)
         \/ exists e,
              search_try last_name first_name booking_number w = (w', Raise e)
              /\ is_Exception e = true
              /\ stdout_write (stdout w') (lit "Search error: " ++ exc_str e) = Raise e')
  /\ (forall inmate_id w w1 e,
         details_try inmate_id w = (w1, Raise e) ->
         is_Exception e = true ->
         stdout_write (stdout w1) (lit "Detail error: " ++ exc_str e) = Ok tt ->
         details inmate_id w
         = (world (session w1) (stdout w1 ++ [lit "Detail error: " ++ exc_str e]),
            Ok None))
  /\ (forall inmate_id w w' e',
         details inmate_id w = (w', Raise e') ->
         (details_try inmate_id w = (w', Raise e') /\ is_Exception e' = false)
         \/ exists e,
              details_try inmate_id w = (w', Raise e)
              /\ is_Exception e = true
              /\ stdout_write (stdout w') (lit "Detail error: " ++ exc_str e) = Raise e').
Proof.
  repeat apply conj.
  - intros ln fn bn w w1 e He Hcls Hw.
    pose proof (try_except_print (search_try ln fn bn) (lit "Search error: ") [] w) as H.
    cbv zeta in H. rewrite He, Hcls, Hw in H. exact H.
  - intros ln fn bn w w' e' Hrun.
    exact (guarded_raises_only (search_try ln fn bn) (lit "Search error: ") [] w w' e' Hrun).
  - intros id w w1 e He Hcls Hw.
    pose proof (try_except_print (details_try id) (lit "Detail error: ") None w) as H.
    cbv zeta in H. rewrite He, Hcls, Hw in H. exact H.
  - intros id w w' e' Hrun.
    exact (guarded_raises_only (details_try id) (lit "Detail error: ") None w w' e' Hrun).
Qed.

(** Each step of [search_inmates] that raises makes the [try] block raise. *)
Lemma search_try_raises_on_get last_name first_name booking_number w s1 e :
  session_get base_url headers 15 (session w) = (s1, Raise e) ->
  search_try last_name first_name booking_number w = (world s1 (stdout w), Raise e).
Proof.
  intros H. unfold search_inmates_try, bind, http_get.
  rewrite H. reflexivity.
Qed.

Lemma search_try_raises_on_parse last_name first_name booking_number w s1 c1 e :
  session_get base_url headers 15 (session w) = (s1, Ok c1) ->
  BeautifulSoup c1 = Raise e ->
  search_try last_name first_name booking_number w = (world s1 (stdout w), Raise e).
Proof.
  intros H Hbs. unfold search_inmates_try, bind, http_get, lift.
  rewrite H. red_world. rewrite Hbs. reflexivity.
Qed.

Lemma search_try_raises_on_post last_name first_name booking_number w s1 c1 d1 s2 e :
  session_get base_url headers 15 (session w) = (s1, Ok c1) ->
  BeautifulSoup c1 = Ok d1 ->
  session_post (base_url ++ lit "/SearchResults.aspx")
    (search_form (soup_of d1) last_name first_name booking_number)
    headers 20 s1 = (s2, Raise e) ->
  search_try last_name first_name booking_number w = (world s2 (stdout w), Raise e).
Proof.
  intros H Hbs Hpost.
  unfold search_inmates_try, bind, http_get, http_post, lift.
  rewrite H. red_world. rewrite Hbs. red_world. rewrite Hpost. reflexivity.
Qed.

Lemma search_try_raises_on_results_parse
    last_name first_name booking_number w s1 c1 d1 s2 c2 e :
  session_get base_url headers 15 (session w) = (s1, Ok c1) ->
  BeautifulSoup c1 = Ok d1 ->
  session_post (base_url ++ lit "/SearchResults.aspx")
    (search_form (soup_of d1) last_name first_name booking_number)
    headers 20 s1 = (s2, Ok c2) ->
  BeautifulSoup c2 = Raise e ->
  search_try last_name first_name booking_number w = (world s2 (stdout w), Raise e).
Proof.
  intros H Hbs Hpost Hbs2.
  unfold search_inmates_try, bind, http_get, http_post, lift.
  rewrite H. red_world. rewrite Hbs. red_world. rewrite Hpost. red_world.
  rewrite Hbs2. reflexivity.
Qed.

Lemma details_try_raises_on_get inmate_id w s1 e :
  session_get (base_url ++ lit "/InmateDetail.aspx?InmateID=" ++ inmate_id)
    headers 15 (session w) = (s1, Raise e) ->
  details_try inmate_id w = (world s1 (stdout w), Raise e).
Proof.
  intros H. unfold get_inmate_details_try, bind, http_get.
  rewrite H. reflexivity.
Qed.

Lemma details_try_raises_on_parse inmate_id w s1 c e :
  session_get (base_url ++ lit "/InmateDetail.aspx?InmateID=" ++ inmate_id)
    headers 15 (session w) = (s1, Ok c) ->
  BeautifulSoup c = Raise e ->
  details_try inmate_id w = (world s1 (stdout w), Raise e).
Proof.
  intros H Hbs. unfold get_inmate_details_try, bind, http_get, lift.
  rewrite H. red_world. rewrite Hbs. reflexivity.
Qed.

End MethodFacts.

(** ** Text normalisation *)

Lemma split_words s : forallb is_word (split s) = true.
Proof.
  induction s as [|c r IH]; [reflexivity|].
  cbn [split]. destruct (isspace c) eqn:Ec; [exact IH|].
  destruct r as [|c' r'].
  - cbn. now rewrite Ec.
  - destruct (isspace c') eqn:Ec'.
    + cbn [forallb]. rewrite IH. cbn. now rewrite Ec.
    + destruct (split (c' :: r')) as [|w ws].
      * cbn. now rewrite Ec.
      * cbn [forallb] in IH |- *. apply andb_true_iff in IH as [Hw Hws].
        rewrite Hws, andb_true_r. destruct w as [|x w]; [discriminate|].
        cbn [is_word forallb] in Hw |- *. now rewrite Ec, Hw.
Qed.

Lemma split_one_word w : is_word w = true -> split w = [w].
Proof.
  induction w as [|c r IH]; [discriminate|].
  cbn [is_word forallb]. intros H. apply andb_true_iff in H as [Hc Hr].
  apply negb_true_iff in Hc. cbn [split]. rewrite Hc.
  destruct r as [|c' r']; [reflexivity|].
  assert (Hw : is_word (c' :: r') = true) by exact Hr.
  cbn [forallb] in Hr. apply andb_true_iff in Hr as [Hc' _].
  apply negb_true_iff in Hc'. rewrite Hc', (IH Hw). reflexivity.
Qed.

Lemma split_word_then_space w r :
  is_word w = true -> split (w ++ lit " " ++ r) = w :: split r.
Proof.
  induction w as [|c w IH]; [discriminate|].
  cbn [is_word forallb]. intros H. apply andb_true_iff in H as [Hc Hr].
  apply negb_true_iff in Hc.
  change ((c :: w) ++ lit " " ++ r) with (c :: (w ++ lit " " ++ r)).
  cbn [split]. rewrite Hc.
  destruct w as [|c' w'].
  - reflexivity.
  - assert (Hw : is_word (c' :: w') = true) by exact Hr.
    cbn [forallb] in Hr. apply andb_true_iff in Hr as [Hc' _].
    apply negb_true_iff in Hc'.
    change ((c' :: w') ++ lit " " ++ r) with (c' :: (w' ++ lit " " ++ r)) in *.
    cbv beta iota. rewrite Hc', (IH Hw). reflexivity.
Qed.

(** Splitting what was joined from words gives the words back. *)
Lemma split_join ws :
  forallb is_word ws = true -> split (join (lit " ") ws) = ws.
Proof.
  induction ws as [|w ws IH]; [reflexivity|].
  cbn [forallb]. intros H. apply andb_true_iff in H as [Hw Hws].
  destruct ws as [|w2 rest].
  - now apply split_one_word.
  - change (join (lit " ") (w :: w2 :: rest))
      with (w ++ lit " " ++ join (lit " ") (w2 :: rest)).
    rewrite split_word_then_space by exact Hw. now rewrite IH.
Qed.

Lemma lstrip_id s : starts_with_space s = false -> lstrip s = s.
Proof. destruct s as [|c s]; simpl; [reflexivity|]. now intros ->. Qed.

Lemma strip_id s :
  starts_with_space s = false -> starts_with_space (rev s) = false -> strip s = s.
Proof.
  intros H1 H2. unfold strip. rewrite (lstrip_id s H1), (lstrip_id _ H2).
  apply rev_involutive.
Qed.

Lemma word_ends_visible w : is_word w = true -> starts_with_space (rev w) = false.
Proof.
  intros H. destruct w as [|c w]; [discriminate|]. cbn [is_word] in H.
  destruct (rev (c :: w)) as [|x l] eqn:E; [reflexivity|].
  assert (Hx : In x (c :: w)) by (apply in_rev; rewrite E; now left).
  rewrite forallb_forall in H. specialize (H x Hx).
  now apply negb_true_iff in H.
Qed.

Lemma ends_of_app a b :
  b <> [] -> starts_with_space (rev (a ++ b)) = starts_with_space (rev b).
Proof.
  intros Hb. rewrite rev_app_distr.
  destruct (rev b) as [|x l] eqn:E; [|reflexivity].
  exfalso. apply Hb. rewrite <- (rev_involutive b), E. reflexivity.
Qed.

Lemma no_double_space_cons c s :
  no_double_space (c :: s)
  = match s with
    | c' :: _ => negb (isspace c && isspace c') && no_double_space s
    | [] => true
    end.
Proof. destruct s; reflexivity. Qed.

Lemma join_words_shape ws :
  forallb is_word ws = true ->
  starts_with_space (join (lit " ") ws) = false
  /\ starts_with_space (rev (join (lit " ") ws)) = false
  /\ no_double_space (join (lit " ") ws) = true.
Proof.
  induction ws as [|w ws IH]; [now repeat split|].
  cbn [forallb]. intros H. apply andb_true_iff in H as [Hw Hws].
  specialize (IH Hws). destruct ws as [|w2 rest].
  - cbn [join]. split; [|split].
    + destruct w as [|c w]; [discriminate|]. cbn in Hw |- *.
      apply andb_true_iff in Hw as [Hc _]. now apply negb_true_iff.
    + now apply word_ends_visible.
    + clear IH Hws. induction w as [|c w IHw]; [reflexivity|].
      destruct w as [|c' w']; [reflexivity|].
      cbn [is_word forallb] in Hw. apply andb_true_iff in Hw as [Hc Hr].
      apply negb_true_iff in Hc. cbn [no_double_space]. rewrite Hc.
      cbn [andb negb]. apply IHw. exact Hr.
  - change (join (lit " ") (w :: w2 :: rest))
      with (w ++ lit " " ++ join (lit " ") (w2 :: rest)).
    set (t := join (lit " ") (w2 :: rest)) in *.
    destruct IH as (Hs & He & Hd).
    assert (Ht : t <> []).
    { unfold t. cbn [forallb] in Hws. apply andb_true_iff in Hws as [Hw2 _].
      destruct w2; [discriminate|]. destruct rest; discriminate. }
    split; [|split].
    + destruct w as [|c w]; [discriminate|]. cbn in Hw |- *.
      apply andb_true_iff in Hw as [Hc _]. now apply negb_true_iff.
    + rewrite app_assoc, ends_of_app by exact Ht. exact He.
    + clear Hws He. induction w as [|c w IHw]; [discriminate|].
      cbn [is_word forallb] in Hw. apply andb_true_iff in Hw as [Hc Hr].
      apply negb_true_iff in Hc.
      destruct w as [|c' w'].
      * destruct t as [|x t']; [contradiction|].
        cbn in Hs.
        change ([c] ++ lit " " ++ x :: t') with (c :: 32%N :: x :: t').
        rewrite (no_double_space_cons c), (no_double_space_cons 32%N).
        rewrite Hc, Hs, Hd, andb_false_r. reflexivity.
      * change ((c :: c' :: w') ++ lit " " ++ t)
          with (c :: c' :: (w' ++ lit " " ++ t)).
        rewrite no_double_space_cons, Hc. cbn [andb negb].
        apply IHw. exact Hr.
Qed.

Lemma join_words_normalized ws :
  forallb is_word ws = true -> normalized (join (lit " ") ws) = true.
Proof.
  intros H. destruct (join_words_shape ws H) as (Hs & He & Hd).
  unfold normalized. now rewrite Hs, He, Hd.
Qed.

(** On a non-empty text [_clean_text] is the join of the words. *)
Lemma clean_text_nonempty s :
  s <> [] -> _clean_text s = join (lit " ") (split s).
Proof.
  intros Hs. destruct s as [|c s]; [contradiction|].
  unfold _clean_text.
  destruct (join_words_shape _ (split_words (c :: s))) as (H1 & H2 & _).
  now apply strip_id.
Qed.

(** The result of [_clean_text] has no leading, trailing or doubled
    whitespace, on every input. *)
Lemma clean_text_normalized s : normalized (_clean_text s) = true.
Proof.
  destruct s as [|c s]; [reflexivity|].
  rewrite clean_text_nonempty by discriminate.
  apply join_words_normalized, split_words.
Qed.

(** The words of a non-empty text are the words of its cleaned form. *)
Lemma clean_text_keeps_words s : s <> [] -> split (_clean_text s) = split s.
Proof.
  intros Hs. rewrite clean_text_nonempty by exact Hs.
  apply split_join, split_words.
Qed.

(** [_clean_text] is idempotent wherever its result is not empty. *)
Lemma clean_text_idempotent_unless_empty s :
  _clean_text s <> [] -> _clean_text (_clean_text s) = _clean_text s.
Proof.
  intros Hne. destruct s as [|c s]; [reflexivity|].
  rewrite (clean_text_nonempty (c :: s)) in * by discriminate.
  rewrite clean_text_nonempty by exact Hne.
  now rewrite split_join by apply split_words.
Qed.

Lemma split_blank s : has_visible s = false <-> split s = [].
Proof.
  induction s as [|c r IH]; [now split|].
  cbn [has_visible existsb split]. destruct (isspace c) eqn:Ec; cbn [negb orb].
  - exact IH.
  - split; [discriminate|]. destruct r as [|c' r']; [discriminate|].
    destruct (isspace c'); [discriminate|].
    destruct (split (c' :: r')); discriminate.
Qed.

(** The result is empty exactly on the non-empty texts made of whitespace. *)
Lemma clean_text_empty_iff s :
  _clean_text s = [] <-> s <> [] /\ has_visible s = false.
Proof.
  destruct s as [|c s].
  - split; [discriminate | intros [H _]; contradiction].
  - rewrite clean_text_nonempty by discriminate. rewrite split_blank. split.
    + intros H. split; [discriminate|].
      pose proof (split_words (c :: s)) as Hw.
      destruct (split (c :: s)) as [|w ws]; [reflexivity|].
      cbn [forallb] in Hw. apply andb_true_iff in Hw as [Hw _].
      destruct w; [discriminate|]. destruct ws; discriminate.
    + intros [_ ->]. reflexivity.
Qed.

(** C8.  [_clean_text] on a string of three spaces returns the empty string,
    and [_clean_text] on the empty string returns the sentinel: on this input
    a second normalisation changes the result of the first. *)
Theorem C8_clean_text_blank_then_sentinel :
  _clean_text (lit "   ") = []
  /\ _clean_text (_clean_text (lit "   ")) = lit "N/A"
  /\ _clean_text (_clean_text (lit "   ")) <> _clean_text (lit "   ").
Proof.
  repeat split; try reflexivity. vm_compute. discriminate.
Qed.

(** ** Locating the results table *)

Lemma table_by_id_iff e :
  table_by_id e = true <->
  exists attrs contents id,
    node e = Tag (lit "table") attrs contents
    /\ Dict.get attrs (lit "id") = Some id
    /\ Re.search re_GridView id = true.
Proof.
  unfold table_by_id, search_tag. destruct (node e) as [n a cs|cls s].
  - unfold matches_attr. cbn [forallb fst snd].
    replace (multi_valued (lit "id")) with false by reflexivity.
    rewrite andb_true_r, andb_true_iff, str_eqb_eq. split.
    + intros [-> H]. destruct (Dict.get a (lit "id")) as [id|] eqn:E; [|discriminate].
      now exists a, cs, id.
    + intros (a' & cs' & id & E & Hid & Hs). injection E as -> -> ->.
      rewrite Hid. now split.
  - split; [discriminate|]. intros (a & cs & id & E & _). discriminate.
Qed.

Lemma table_by_class_iff e :
  table_by_class e = true <->
  exists attrs contents class,
    node e = Tag (lit "table") attrs contents
    /\ Dict.get attrs (lit "class") = Some class
    /\ (existsb (Re.search re_grid_result) (split class)
        || Re.search re_grid_result (join (lit " ") (split class))) = true.
Proof.
  unfold table_by_class, search_tag. destruct (node e) as [n a cs|cls s].
  - unfold matches_attr. cbn [forallb fst snd matches_value].
    replace (multi_valued (lit "class")) with true by reflexivity.
    rewrite andb_true_r, andb_true_iff, str_eqb_eq. split.
    + intros [-> H]. destruct (Dict.get a (lit "class")) as [c|] eqn:E; [|discriminate].
      now exists a, cs, c.
    + intros (a' & cs' & c & E & Hc & Hs). injection E as -> -> ->.
      rewrite Hc. now split.
  - split; [discriminate|]. intros (a & cs & c & E & _). discriminate.
Qed.

(** C2, as the code has it.  The results table is the first table of the
    document whose id matches "GridView" without regard to case; when no
    table has such an id it is the first table whose class matches "grid" or
    "result" without regard to case; the summaries are those of its rows
    after the first.  When no table passes either test the result is the
    empty list. *)
Theorem C2_results_table_by_GridView_then_class soup :
  (forall pre t post,
      descendants (node soup) = pre ++ t :: post ->
      table_by_id t = true ->
      (forall x, In x pre -> table_by_id x = false) ->
      results_table soup = Some t
      /\ _parse_results soup = summaries_of_rows (tl (find_all t (lit "tr") [])))
  /\ (forall pre t post,
         descendants (node soup) = pre ++ t :: post ->
         (forall x, In x (descendants (node soup)) -> table_by_id x = false) ->
         table_by_class t = true ->
         (forall x, In x pre -> table_by_class x = false) ->
         results_table soup = Some t
         /\ _parse_results soup = summaries_of_rows (tl (find_all t (lit "tr") [])))
  /\ ((forall x, In x (descendants (node soup)) ->
                 table_by_id x = false /\ table_by_class x = false) ->
      results_table soup = None /\ _parse_results soup = []).
Proof.
  repeat apply conj.
  - intros pre t post Hd Ht Hpre.
    assert (R : results_table soup = Some t).
    { unfold results_table. now rewrite (find_first soup _ _ pre t post Hd Ht Hpre). }
    split; [exact R | now apply parse_results_table].
  - intros pre t post Hd Hid Ht Hpre.
    assert (R : results_table soup = Some t).
    { unfold results_table. rewrite (find_none soup _ _ Hid).
      exact (find_first soup _ _ pre t post Hd Ht Hpre). }
    split; [exact R | now apply parse_results_table].
  - intros H.
    assert (R : results_table soup = None).
    { unfold results_table.
      rewrite (find_none soup (lit "table") [(lit "id", MRegex re_GridView)]
                 (fun x Hx => proj1 (H x Hx))).
      apply find_none. intros x Hx. exact (proj2 (H x Hx)). }
    split; [exact R|]. unfold _parse_results. now rewrite R.
Qed.

(** C2, as stated, fails: a table whose id is "grid" matches the pattern
    "grid" and has one row of three cells, yet the code finds no table and
    returns nothing. *)
Lemma C2_counterexample_id_grid :
  option_map (fun t => (get t (lit "id") [],
                        List.length (summaries_of_rows (tl (find_all t (lit "tr") [])))))
    (spec_results_table Examples.page_id_grid) = Some (lit "grid", 1)
  /\ results_table Examples.page_id_grid = None
  /\ _parse_results Examples.page_id_grid = [].
Proof.
  repeat split; vm_compute; reflexivity.
Qed.

(** ** The form tokens *)

(** C3, as the code has it.  For each of the three hidden inputs: when the
    page has no such input, the form data and the posted form have no entry
    under that name; when it has one, both carry the input's value, which is
    the empty string when the input has no value attribute.  The extraction
    is a total function on documents: it has no failing case. *)
Theorem C3_missing_token_is_left_out soup key :
  In key token_names ->
  match token_input soup key with
  | None =>
      Dict.get (_get_form_data soup) key = None
      /\ forall last_name first_name booking_number,
          Dict.get (search_form soup last_name first_name booking_number) key = None
  | Some input =>
      Dict.get (_get_form_data soup) key = Some (get input (lit "value") [])
      /\ (forall last_name first_name booking_number,
             Dict.get (search_form soup last_name first_name booking_number) key
             = Some (get input (lit "value") []))
      /\ (Dict.get (tag_attrs input) (lit "value") = None ->
          get input (lit "value") [] = [])
  end.
Proof.
  assert (Hform : forall k, In k token_names ->
            forall ln fn bn,
              Dict.get (search_form soup ln fn bn) k = Dict.get (_get_form_data soup) k).
  { intros k Hk ln fn bn. unfold search_form.
    rewrite !get_set_other; [reflexivity| | | |];
      intros <-; destruct Hk as [Hk|[Hk|[Hk|[]]]]; vm_compute in Hk;
        discriminate Hk. }
  assert (Hget : forall input, Dict.get (tag_attrs input) (lit "value") = None ->
                               get input (lit "value") [] = []).
  { intros input H. unfold get. now rewrite H. }
  intros Hkey.
  assert (Hdata : Dict.get (_get_form_data soup) key
                  = option_map (fun input => get input (lit "value") [])
                      (token_input soup key)).
  { unfold token_input, _get_form_data.
    destruct Hkey as [<-|[<-|[<-|[]]]];
      destruct (find soup (lit "input") [(lit "name", MString (lit "__VIEWSTATE"))]);
      destruct (find soup (lit "input") [(lit "name", MString (lit "__VIEWSTATEGENERATOR"))]);
      destruct (find soup (lit "input") [(lit "name", MString (lit "__EVENTVALIDATION"))]);
      reflexivity. }
  destruct (token_input soup key) as [input|] eqn:E; cbn in Hdata.
  - repeat split; [exact Hdata | | apply Hget].
    intros. now rewrite Hform.
  - split; [exact Hdata|]. intros. now rewrite Hform.
Qed.

(** C3, as stated, fails: on a page without hidden inputs the form data has
    no [__VIEWSTATE] entry, and neither has the posted form; the entry is
    not the empty string. *)
Lemma C3_counterexample_no_tokens :
  token_input Examples.page_no_tokens (lit "__VIEWSTATE") = None
  /\ _get_form_data Examples.page_no_tokens = []
  /\ Dict.get (search_form Examples.page_no_tokens (lit "DOE") [] []) (lit "__VIEWSTATE")
     <> Some [].
Proof.
  repeat split; try reflexivity. vm_compute. discriminate.
Qed.

(** ** The inmate id of a row *)

Lemma strip_prefix_app p s rest :
  Re.strip_prefix p s = Some rest -> s = p ++ rest.
Proof.
  revert s. induction p as [|a p IH]; intros s; simpl.
  - congruence.
  - destruct s as [|c s]; [discriminate|].
    destruct (c =? a)%N eqn:E; [|discriminate].
    apply N.eqb_eq in E. subst c. intros H. f_equal. now apply IH.
Qed.

Lemma strip_prefix_same p s : Re.strip_prefix p (p ++ s) = Some s.
Proof.
  induction p as [|a p IH]; simpl; [reflexivity|].
  now rewrite N.eqb_refl.
Qed.

Lemma take_digits_spec s :
  forallb isdecimal (Re.take_digits s) = true
  /\ exists rest, s = Re.take_digits s ++ rest.
Proof.
  induction s as [|c s [IHd [rest IHr]]]; simpl.
  - split; [reflexivity | now exists []].
  - destruct (isdecimal c) eqn:E; simpl.
    + rewrite E, IHd. split; [reflexivity|].
      exists rest. now rewrite <- IHr.
    + split; [reflexivity | now exists (c :: s)].
Qed.

(** What the pattern captures is a non-empty run of decimal digits that
    follows [InmateID=] in the text. *)
Lemma search_InmateID_sound s g :
  Re.search_InmateID s = Some g ->
  g <> [] /\ forallb isdecimal g = true
  /\ exists pre rest, s = pre ++ lit "InmateID=" ++ g ++ rest.
Proof.
  assert (Here : forall s g, Re.match_InmateID_here s = Some g ->
            g <> [] /\ forallb isdecimal g = true
            /\ exists rest, s = lit "InmateID=" ++ g ++ rest).
  { clear. intros s g. unfold Re.match_InmateID_here.
    destruct (Re.strip_prefix _ s) as [r|] eqn:E; [|discriminate].
    apply strip_prefix_app in E.
    destruct (take_digits_spec r) as [Hd [rest Hr]].
    destruct (Re.take_digits r) as [|d ds] eqn:Et; [discriminate|].
    intros H. injection H as <-.
    split; [discriminate|]. split; [exact Hd|].
    exists rest. now rewrite <- Hr. }
  induction s as [|c s IH]; cbn [Re.search_InmateID].
  - destruct (Re.match_InmateID_here []) eqn:E; [|discriminate].
    intros H. injection H as ->.
    destruct (Here _ _ E) as (? & ? & rest & Hr).
    repeat split; trivial. now exists [], rest.
  - destruct (Re.match_InmateID_here (c :: s)) eqn:E.
    + intros H. injection H as ->.
      destruct (Here _ _ E) as (? & ? & rest & Hr).
      repeat split; trivial. now exists [], rest.
    + intros H. destruct (IH H) as (? & ? & pre & rest & ->).
      repeat split; trivial. now exists (c :: pre), rest.
Qed.

(** A text that holds [InmateID=] followed by a decimal digit is matched. *)
Lemma search_InmateID_complete pre c rest :
  isdecimal c = true ->
  exists g, Re.search_InmateID (pre ++ lit "InmateID=" ++ c :: rest) = Some g.
Proof.
  intros Hc.
  assert (Here : exists g,
             Re.match_InmateID_here (lit "InmateID=" ++ c :: rest) = Some g).
  { unfold Re.match_InmateID_here. rewrite strip_prefix_same.
    simpl. rewrite Hc. eauto. }
  induction pre as [|a pre [g IH]].
  - destruct Here as [g Hg]. exists g.
    change ([] ++ lit "InmateID=" ++ c :: rest) with (lit "InmateID=" ++ c :: rest).
    revert Hg. generalize (lit "InmateID=" ++ c :: rest).
    intros [|x l] Hg; cbn [Re.search_InmateID]; now rewrite Hg.
  - cbn [app Re.search_InmateID].
    destruct (Re.match_InmateID_here (a :: pre ++ lit "InmateID=" ++ c :: rest));
      eauto.
Qed.

Lemma no_id_link_first cell link :
  spec_cell_has_id_link cell = false ->
  find cell (lit "a") [] = Some link ->
  href_inmate_id link = None.
Proof.
  unfold spec_cell_has_id_link, find. intros H Hf.
  destruct (find_all cell (lit "a") []) as [|x l]; [discriminate|].
  injection Hf as ->. simpl in H. apply orb_false_iff in H as [H _].
  destruct (href_inmate_id link); [discriminate | reflexivity].
Qed.

(** C6, as the code has it.  A row that yields a summary has a first cell,
    and the summary's [inmate_id] field is decided by the first link of that
    cell alone: when that link has an [href] in which [InmateID=] is followed
    by decimal digits, the field is the first such run of digits; in every
    other case the summary has no [inmate_id] field.  In particular a first
    cell none of whose links carries the identifier gives no field, and a
    field that is present is a non-empty string of digits. *)
Theorem C6_inmate_id_from_first_link row inmate :
  parse_row row = Some inmate ->
  exists cell0 rest,
    find_all row (lit "td") [] = cell0 :: rest
    /\ Dict.get inmate (lit "inmate_id")
       = match find cell0 (lit "a") [] with
         | Some link => href_inmate_id link
         | None => None
         end
    /\ (spec_cell_has_id_link cell0 = false ->
        Dict.get inmate (lit "inmate_id") = None)
    /\ (forall g, Dict.get inmate (lit "inmate_id") = Some g ->
                  g <> [] /\ forallb isdecimal g = true).
Proof.
  unfold parse_row.
  destruct (find_all row (lit "td") []) as [|cell0 rest] eqn:Ecells;
    [discriminate|].
  destruct (3 <=? _); [|discriminate].
  intros H. injection H as <-. exists cell0, rest.
  assert (Eq : Dict.get
                 (attach_inmate_id (cell0 :: rest)
                    [ (lit "name", cell_or_NA (cell0 :: rest) 0);
                      (lit "booking_number", cell_or_NA (cell0 :: rest) 1);
                      (lit "booking_date", cell_or_NA (cell0 :: rest) 2);
                      (lit "age", cell_or_NA (cell0 :: rest) 3);
                      (lit "gender", cell_or_NA (cell0 :: rest) 4);
                      (lit "race", cell_or_NA (cell0 :: rest) 5);
                      (lit "facility", lit "Sedgwick County Jail");
                      (lit "source", lit "sedgwick_county") ])
                 (lit "inmate_id")
               = match find cell0 (lit "a") [] with
                 | Some link => href_inmate_id link
                 | None => None
                 end).
  { unfold attach_inmate_id, href_inmate_id.
    destruct (find cell0 (lit "a") []) as [link|]; [|reflexivity].
    destruct (Dict.get (tag_attrs link) (lit "href")) as [href|]; [|reflexivity].
    destruct (Re.search_InmateID href) as [g|]; [|reflexivity].
    apply get_set_same. }
  split; [reflexivity|]. split; [exact Eq|]. split.
  - intros Hno. refine (eq_trans Eq _).
    destruct (find cell0 (lit "a") []) as [link|] eqn:El; [|reflexivity].
    now apply no_id_link_first with (cell := cell0).
  - intros g Hg. pose proof (eq_trans (eq_sym Eq) Hg) as H. revert H.
    destruct (find cell0 (lit "a") []) as [link|]; [|discriminate].
    unfold href_inmate_id.
    destruct (Dict.get (tag_attrs link) (lit "href")) as [href|]; [|discriminate].
    intros H. apply search_InmateID_sound in H as (? & ? & _). now split.
Qed.

(** C6, as stated, fails: the first cell of this row contains a link whose
    href carries [InmateID=4711], but it is the second link of the cell; the
    row yields a summary, and the summary has no [inmate_id] field. *)
Lemma C6_counterexample_second_link :
  option_map spec_cell_has_id_link
    (hd_error (find_all Examples.row_two_links (lit "td") [])) = Some true
  /\ option_map (fun inmate => Dict.get inmate (lit "inmate_id"))
       (parse_row Examples.row_two_links) = Some None.
Proof.
  split; vm_compute; reflexivity.
Qed.

(** ** The detail page *)

Lemma get_set_keeps {V} (d : Dict.dict V) k v k' :
  Dict.get d k' <> None -> Dict.get (Dict.set d k v) k' <> None.
Proof.
  intros H. destruct (list_eq_dec N.eq_dec k k') as [->|Hne].
  - rewrite get_set_same. discriminate.
  - now rewrite get_set_other.
Qed.

Lemma add_label_keeps d label k :
  Dict.get d k <> None -> Dict.get (add_label d label) k <> None.
Proof.
  intros H. unfold add_label.
  destruct (find_next_sibling label); [now apply get_set_keeps | exact H].
Qed.

Lemma labels_loop_keeps labels d k :
  Dict.get d k <> None -> Dict.get (fold_left add_label labels d) k <> None.
Proof.
  revert d. induction labels as [|l labels IH]; intros d H; simpl; [exact H|].
  apply IH. now apply add_label_keeps.
Qed.

Lemma labels_loop_other labels d k :
  (forall l, In l labels -> find_next_sibling l <> None -> _clean_text (text l) <> k) ->
  Dict.get (fold_left add_label labels d) k = Dict.get d k.
Proof.
  revert d. induction labels as [|l labels IH]; intros d H; simpl; [reflexivity|].
  rewrite IH by (intros l' Hl'; apply H; now right).
  unfold add_label. destruct (find_next_sibling l) eqn:E; [|reflexivity].
  apply get_set_other. apply H; [now left | congruence].
Qed.

Lemma labels_loop_app pre post d :
  fold_left add_label (pre ++ post) d = fold_left add_label post (fold_left add_label pre d).
Proof. apply fold_left_app. Qed.

Lemma label_span_iff e :
  label_span e = true <->
  exists attrs contents class,
    node e = Tag (lit "span") attrs contents
    /\ Dict.get attrs (lit "class") = Some class
    /\ (existsb (Re.search re_label) (split class)
        || Re.search re_label (join (lit " ") (split class))) = true.
Proof.
  unfold label_span, search_tag. destruct (node e) as [n a cs|cls s].
  - unfold matches_attr. cbn [forallb fst snd matches_value].
    replace (multi_valued (lit "class")) with true by reflexivity.
    rewrite andb_true_r, andb_true_iff, str_eqb_eq. split.
    + intros [-> H]. destruct (Dict.get a (lit "class")) as [c|] eqn:E; [|discriminate].
      now exists a, cs, c.
    + intros (a' & cs' & c & E & Hc & Hs). injection E as -> -> ->.
      rewrite Hc. now split.
  - split; [discriminate|]. intros (a & cs & c & E & _). discriminate.
Qed.

(** The value stored under a label after the whole of
    [_parse_inmate_details], given the labels found. *)
Lemma details_after_label soup pre label post value :
  find_all soup (lit "span") [(lit "class", MRegex re_label)] = pre ++ label :: post ->
  find_next_sibling label = Some value ->
  Dict.get (_parse_inmate_details soup) (_clean_text (text label)) <> None
  /\ ((forall l, In l post -> find_next_sibling l <> None ->
                 _clean_text (text l) <> _clean_text (text label)) ->
      (_clean_text (text label) <> lit "charges"
       \/ find soup (lit "table") [(lit "id", MRegex re_Charges)] = None) ->
      Dict.get (_parse_inmate_details soup) (_clean_text (text label))
      = Some (PStr (_clean_text (text value)))).
Proof.
  intros Hl Hv. unfold _parse_inmate_details. rewrite Hl.
  rewrite labels_loop_app. cbn [fold_left].
  set (d0 := fold_left add_label pre []).
  assert (Hset : Dict.get (add_label d0 label) (_clean_text (text label))
                 = Some (PStr (_clean_text (text value)))).
  { unfold add_label. rewrite Hv. apply get_set_same. }
  split.
  - assert (Dict.get (fold_left add_label post (add_label d0 label))
              (_clean_text (text label)) <> None).
    { apply labels_loop_keeps. rewrite Hset. discriminate. }
    destruct (find soup (lit "table") _); [now apply get_set_keeps | assumption].
  - intros Hpost Hcharges.
    assert (Dict.get (fold_left add_label post (add_label d0 label))
              (_clean_text (text label)) = Some (PStr (_clean_text (text value)))).
    { now rewrite labels_loop_other. }
    destruct (find soup (lit "table") _) eqn:Et; [|assumption].
    destruct Hcharges as [Hne|Hnone]; [|discriminate].
    rewrite get_set_other; [assumption | congruence].
Qed.

(** C7, as the code has it.  The labels are the [span] elements whose class
    matches "label" without regard to case.  Each of them that has a
    following sibling element gets an entry under its cleaned text; the entry
    is the cleaned text of that sibling unless a later label with a sibling
    has the same cleaned text, or the text is "charges" and the page has a
    charges table. *)
Theorem C7_span_labels_with_sibling soup :
  (forall label value,
      In label (descendants (node soup)) ->
      label_span label = true ->
      find_next_sibling label = Some value ->
      Dict.contains (_parse_inmate_details soup) (_clean_text (text label)) = true)
  /\ (forall pre label post value,
         find_all soup (lit "span") [(lit "class", MRegex re_label)] = pre ++ label :: post ->
         find_next_sibling label = Some value ->
         (forall l, In l post -> find_next_sibling l <> None ->
                    _clean_text (text l) <> _clean_text (text label)) ->
         (_clean_text (text label) <> lit "charges"
          \/ find soup (lit "table") [(lit "id", MRegex re_Charges)] = None) ->
         Dict.get (_parse_inmate_details soup) (_clean_text (text label))
         = Some (PStr (_clean_text (text value)))).
Proof.
  split.
  - intros label value Hin Hspan Hv.
    assert (Hf : In label (find_all soup (lit "span") [(lit "class", MRegex re_label)])).
    { unfold find_all. apply filter_In. now split. }
    apply in_split in Hf as (pre & post & Hf).
    destruct (details_after_label soup pre label post value Hf Hv) as [H _].
    unfold Dict.contains. now destruct (Dict.get _ _).
  - intros pre label post value Hf Hv Hpost Hc.
    now apply (details_after_label soup pre label post value Hf Hv).
Qed.

(** C7, as stated, fails: a [div] whose class is "label", followed by a
    sibling element, is a label element in the words of the specification,
    and the mapping returned for the page is empty. *)
Lemma C7_counterexample_div_label :
  map (fun l => (tag_name l, _clean_text (text l),
                 option_map (fun v => _clean_text (text v)) (find_next_sibling l)))
    (spec_label_elements Examples.detail_div_label)
  = [(lit "div", lit "Name:", Some (lit "JOHN DOE"))]
  /\ _parse_inmate_details Examples.detail_div_label = [].
Proof.
  split; vm_compute; reflexivity.
Qed.



(** ** Which fields are normalised *)

Lemma decimal_not_space c : isdecimal c = true -> isspace c = false.
Proof.
  intros Hdec. apply not_true_is_false. intros E. revert Hdec.
  unfold isspace in E.
  repeat match type of E with
         | (_ || _) = true => apply orb_true_iff in E as [E|E]
         end;
    repeat match goal with
           | H : (_ && _) = true |- _ => apply andb_true_iff in H as [? ?]
           | H : (_ <=? _)%N = true |- _ => apply N.leb_le in H
           | H : (_ =? _)%N = true |- _ => apply N.eqb_eq in H
           end;
    unfold isdecimal, unicode_decimal_ranges; cbn [existsb fst snd];
    intros Hdec;
    repeat match type of Hdec with
           | (_ || _) = true => apply orb_true_iff in Hdec as [Hdec|Hdec]
           | false = true => discriminate Hdec
           end;
    apply andb_true_iff in Hdec as [Hlo Hhi];
    apply N.leb_le in Hlo; apply N.leb_le in Hhi; lia.
Qed.

Lemma visible_normalized g :
  forallb (fun c => negb (isspace c)) g = true -> normalized g = true.
Proof.
  intros H. destruct g as [|c g]; [reflexivity|].
  apply (join_words_normalized [c :: g]). cbn [forallb is_word].
  now rewrite andb_true_r.
Qed.

Lemma in_set {V} (d : Dict.dict V) k v kv :
  In kv (Dict.set d k v) -> kv = (k, v) \/ In kv d.
Proof.
  induction d as [|[k0 v0] d IH]; simpl.
  - intros [<-|[]]. now left.
  - destruct (str_eqb k k0); simpl.
    + intros [<-|H]; [now left | right; now right].
    + intros [<-|H]; [right; now left|].
      destruct (IH H) as [->|Hd]; [now left | right; now right].
Qed.

Lemma cell_or_NA_normalized cells i : normalized (cell_or_NA cells i) = true.
Proof.
  unfold cell_or_NA. destruct (nth_error cells i); [|reflexivity].
  apply clean_text_normalized.
Qed.

(** Every field of a summary is normalised. *)
Lemma summary_fields_normalized row inmate :
  parse_row row = Some inmate ->
  forall k v, In (k, v) inmate -> normalized v = true.
Proof.
  unfold parse_row. destruct (3 <=? _); [|discriminate].
  intros H. injection H as <-. intros k v.
  set (cells := find_all row (lit "td") []).
  assert (Base : forall base,
             (forall k v, In (k, v) base -> normalized v = true) ->
             In (k, v) (attach_inmate_id cells base) -> normalized v = true).
  { intros base Hbase. unfold attach_inmate_id.
    destruct cells as [|cell0 rest]; [apply Hbase|].
    destruct (find cell0 (lit "a") []) as [link|]; [|apply Hbase].
    destruct (Dict.get (tag_attrs link) (lit "href")) as [href|]; [|apply Hbase].
    destruct (Re.search_InmateID href) as [g|] eqn:Eg; [|apply Hbase].
    intros Hin. apply in_set in Hin as [E|Hin]; [|now apply (Hbase k)].
    injection E as -> ->.
    apply search_InmateID_sound in Eg as (_ & Hd & _).
    apply visible_normalized. rewrite forallb_forall in *.
    intros c Hc. now rewrite (decimal_not_space c (Hd c Hc)). }
  apply Base. clear. intros k v H. cbn [In] in H.
  repeat (destruct H as [H|H];
          [injection H as <- <-;
           first [apply cell_or_NA_normalized | reflexivity]|]).
  contradiction.
Qed.

(** Every label value of a detail mapping is normalised, and so is every
    key that a label gave. *)
Lemma detail_values_normalized soup k v :
  In (k, PStr v) (_parse_inmate_details soup) ->
  normalized k = true /\ normalized v = true.
Proof.
  unfold _parse_inmate_details.
  set (labels := find_all soup (lit "span") _).
  assert (Loop : forall d,
             (forall k v, In (k, PStr v) d -> normalized k = true /\ normalized v = true) ->
             In (k, PStr v) (fold_left add_label labels d) ->
             normalized k = true /\ normalized v = true).
  { induction labels as [|l labels IH]; intros d Hd; cbn [fold_left].
    - apply Hd.
    - apply IH. intros k' v' Hin. unfold add_label in Hin.
      destruct (find_next_sibling l); [|now apply Hd].
      apply in_set in Hin as [E|Hin]; [|now apply Hd].
      injection E as -> ->. split; apply clean_text_normalized. }
  destruct (find soup (lit "table") _).
  - intros Hin. apply in_set in Hin as [E|Hin]; [discriminate E|].
    revert Hin. apply Loop. intros ? ? [].
  - apply Loop. intros ? ? [].
Qed.

Lemma join_app sep a b :
  a <> [] -> b <> [] -> join sep (a ++ b) = join sep a ++ sep ++ join sep b.
Proof.
  intros Ha Hb. induction a as [|x a IH]; [contradiction|].
  destruct a as [|y a].
  - destruct b; [contradiction | reflexivity].
  - change (join sep ((x :: y :: a) ++ b)) with (x ++ sep ++ join sep ((y :: a) ++ b)).
    rewrite IH by discriminate.
    change (join sep (x :: y :: a)) with (x ++ sep ++ join sep (y :: a)).
    now rewrite <- !app_assoc.
Qed.

Lemma join_of_joins sep wss :
  (forall ws, In ws wss -> ws <> []) ->
  join sep (map (join sep) wss) = join sep (List.concat wss).
Proof.
  induction wss as [|ws wss IH]; intros H; [reflexivity|].
  assert (Hws : ws <> []) by (apply H; now left).
  assert (Hrest : forall ws', In ws' wss -> ws' <> []) by (intros; apply H; now right).
  destruct wss as [|ws2 wss].
  - cbn. now rewrite app_nil_r.
  - change (join sep (map (join sep) (ws :: ws2 :: wss)))
      with (join sep ws ++ sep ++ join sep (map (join sep) (ws2 :: wss))).
    rewrite (IH Hrest).
    change (List.concat (ws :: ws2 :: wss)) with (ws ++ List.concat (ws2 :: wss)).
    rewrite join_app; [reflexivity | exact Hws |].
    assert (ws2 <> []) by (apply Hrest; now left).
    destruct ws2; [contradiction | discriminate].
Qed.

(** A cleaned text that is not empty is the join of a non-empty list of
    words. *)
Lemma clean_text_words s :
  _clean_text s <> [] ->
  exists ws, ws <> [] /\ forallb is_word ws = true
             /\ _clean_text s = join (lit " ") ws.
Proof.
  destruct s as [|c s].
  - intros _. exists [lit "N/A"]. now repeat split.
  - rewrite clean_text_nonempty by discriminate. intros Hne.
    exists (split (c :: s)). repeat split.
    + intros E. now rewrite E in Hne.
    + apply split_words.
Qed.

(** A charge string is normalised when no cell of its row cleans to the
    empty string. *)
Lemma charge_normalized_without_blank_cell row :
  (forall c, In c (find_all row (lit "td") []) -> _clean_text (text c) <> []) ->
  normalized (charge_of_row row) = true.
Proof.
  unfold charge_of_row. generalize (find_all row (lit "td") []). intros cells H.
  assert (W : exists wss,
             (forall ws, In ws wss -> ws <> [] /\ forallb is_word ws = true)
             /\ map (fun c => _clean_text (text c)) cells = map (join (lit " ")) wss).
  { induction cells as [|c cells IH].
    - exists []. split; [intros ? []|reflexivity].
    - destruct IH as (wss & Hw & E); [intros; apply H; now right|].
      destruct (clean_text_words (text c)) as (ws & Hne & Hws & Ec);
        [apply H; now left|].
      exists (ws :: wss). split.
      + intros ws' [<-|Hin]; [now split | now apply Hw].
      + cbn [map]. now rewrite Ec, E. }
  destruct W as (wss & Hw & ->).
  rewrite join_of_joins by (intros ws Hin; apply (Hw ws Hin)).
  apply join_words_normalized. apply forallb_forall.
  intros w Hin. apply in_concat in Hin as (ws & Hws & Hin).
  destruct (Hw ws Hws) as [_ Hall]. rewrite forallb_forall in Hall. now apply Hall.
Qed.

(** C9.  A charges row whose cells read "THEFT", one space, "FELONY" gives
    the charge string "THEFT  FELONY": the blank cell is cleaned to the empty
    string and the join puts a space on each side of it, so the charge holds
    two spaces in a row. *)
Theorem C9_charge_with_blank_cell_has_double_space :
  _parse_inmate_details Examples.detail_blank_cell
  = [(lit "charges", PList [lit "THEFT  FELONY"])]
  /\ normalized (lit "THEFT  FELONY") = false.
Proof.
  split; vm_compute; reflexivity.
Qed.

(** ** The methods on pages that are fetched and parsed *)

Lemma parse_row_name row inmate :
  parse_row row = Some inmate ->
  Dict.get inmate (lit "name")
  = option_map (fun cell => _clean_text (text cell))
      (hd_error (find_all row (lit "td") [])).
Proof.
  unfold parse_row.
  destruct (find_all row (lit "td") []) as [|c0 cells] eqn:E; [discriminate|].
  destruct (3 <=? _); [|discriminate]. intros H. injection H as <-.
  unfold attach_inmate_id.
  destruct (find c0 (lit "a") []) as [link|]; [|reflexivity].
  destruct (Dict.get (tag_attrs link) (lit "href")) as [href|]; [|reflexivity].
  destruct (Re.search_InmateID href); reflexivity.
Qed.

(** The names of the summaries are the cleaned first cells of the rows that
    have three cells, in the order of the rows. *)
Lemma summaries_names rows :
  map (fun inmate => Dict.get inmate (lit "name")) (summaries_of_rows rows)
  = map (fun row =>
           option_map (fun cell => _clean_text (text cell))
             (hd_error (find_all row (lit "td") [])))
      (filter has_three_cells rows).
Proof.
  induction rows as [|row rows IH]; [reflexivity|].
  change (summaries_of_rows (row :: rows))
    with (match parse_row row with Some i => [i] | None => [] end
          ++ summaries_of_rows rows).
  cbn [filter].
  pose proof (parse_row_name row) as Hname.
  assert (E : parse_row row = None <-> has_three_cells row = false).
  { unfold parse_row, has_three_cells. destruct (3 <=? _); split; congruence. }
  destruct (has_three_cells row), (parse_row row) as [inmate|]; cbn [map app].
  - f_equal; [exact (Hname inmate eq_refl) | exact IH].
  - destruct E as [E _]. discriminate (E eq_refl).
  - destruct E as [_ E]. discriminate (E eq_refl).
  - exact IH.
Qed.

Lemma class_without_label_no_span e :
  class_matches_label e = false -> label_span e = false.
Proof.
  unfold class_matches_label, label_span, search_tag, tag_attrs.
  destruct (node e) as [n a cs|cls s]; [|reflexivity].
  cbn [is_tag andb forallb]. intros ->. apply andb_false_r.
Qed.

Section FetchedPages.

Variable Session : Type.
Variable Content : Type.
Variable session_get :
  str -> Dict.dict str -> nat -> Session -> Session * Result Content.
Variable session_post :
  str -> Dict.dict str -> Dict.dict str -> nat -> Session -> Session * Result Content.
Variable BeautifulSoup : Content -> Result PageElement.
Variable stdout_write : list str -> str -> Result unit.

Local Abbreviation search :=
  (search_inmates session_get session_post BeautifulSoup stdout_write).
Local Abbreviation details := (get_inmate_details session_get BeautifulSoup stdout_write).
Local Abbreviation details_try := (get_inmate_details_try session_get BeautifulSoup).

(** C4, as the code has it.  The rows of the results table are all the [tr]
    elements below it, at any depth, in document order, and the cells of a
    row are all the [td] elements below it, at any depth; [th] elements are
    not cells.  When the search page and the results page are fetched and
    parsed and the rows are a first row followed by [rows], the search
    returns one summary for each row of [rows] that has at least three
    cells, in order, and drops the other rows; the name of each summary is
    the cleaned text of the first cell of its row.  So the number of
    summaries is the number of rows with at least three cells, and it is the
    number of [rows] when each of them has three. *)
Theorem C4_one_summary_per_row_with_three_cells
    last_name first_name booking_number w s1 c1 d1 s2 c2 d2 table header rows :
  session_get base_url headers 15 (session w) = (s1, Ok c1) ->
  BeautifulSoup c1 = Ok d1 ->
  session_post (base_url ++ lit "/SearchResults.aspx")
    (search_form (soup_of d1) last_name first_name booking_number)
    headers 20 s1 = (s2, Ok c2) ->
  BeautifulSoup c2 = Ok d2 ->
  results_table (soup_of d2) = Some table ->
  find_all table (lit "tr") [] = header :: rows ->
  exists inmates,
    search last_name first_name booking_number w = (world s2 (stdout w), Ok inmates)
    /\ inmates = summaries_of_rows rows
    /\ map (fun inmate => Dict.get inmate (lit "name")) inmates
       = map (fun row =>
                option_map (fun cell => _clean_text (text cell))
                  (hd_error (find_all row (lit "td") [])))
           (filter has_three_cells rows)
    /\ List.length inmates = List.length (filter has_three_cells rows)
    /\ ((forall row, In row rows -> has_three_cells row = true) ->
        List.length inmates = List.length rows).
Proof.
  intros Hget Hbs1 Hpost Hbs2 Htable Hrows.
  exists (_parse_results (soup_of d2)).
  assert (E : _parse_results (soup_of d2) = summaries_of_rows rows).
  { rewrite (parse_results_table _ _ Htable), Hrows. reflexivity. }
  split.
  - now apply search_inmates_ok with (s1 := s1) (c1 := c1) (d1 := d1) (c2 := c2).
  - split; [exact E|]. rewrite E. split; [apply summaries_names|].
    rewrite summaries_count. split; [reflexivity|].
    intros Hall. f_equal. clear - Hall.
    induction rows as [|row rows IH]; simpl; [reflexivity|].
    rewrite (Hall row (or_introl eq_refl)). f_equal. apply IH.
    intros r Hr. apply Hall. now right.
Qed.

(** C10.  When the detail page is fetched and parsed and no element of it
    has a class that matches "label" and no table of it has an id that
    matches "charges", [get_inmate_details] returns the empty mapping, not
    [None]; and whenever it returns [None] its [try] block raised. *)
Theorem C10_empty_mapping_is_not_None :
  (forall inmate_id w s1 c d,
      session_get (base_url ++ lit "/InmateDetail.aspx?InmateID=" ++ inmate_id)
        headers 15 (session w) = (s1, Ok c) ->
      BeautifulSoup c = Ok d ->
      (forall x, In x (descendants d) ->
                 class_matches_label x = false /\ charges_table x = false) ->
      details inmate_id w = (world s1 (stdout w), Ok (Some [])))
  /\ (forall inmate_id w w',
         details inmate_id w = (w', Ok None) ->
         exists w1 e, details_try inmate_id w = (w1, Raise e)).
Proof.
  split.
  - intros id w s1 c d Hget Hbs Hempty.
    rewrite (get_inmate_details_ok _ _ session_get BeautifulSoup stdout_write
               id w s1 c d Hget Hbs).
    do 3 f_equal. unfold _parse_inmate_details, find, find_all.
    cbn [node soup_of].
    rewrite (filter_none (search_tag (lit "span") _)).
    + rewrite (filter_none (search_tag (lit "table") _)); [reflexivity|].
      intros x Hx. exact (proj2 (Hempty x Hx)).
    + intros x Hx. apply class_without_label_no_span. exact (proj1 (Hempty x Hx)).
  - intros id w w' Hnone.
    pose proof (try_except_print _ stdout_write (details_try id)
                  (lit "Detail error: ") None w) as H.
    cbv zeta in H.
    destruct (details_try id w) as [w1 [a|e]] eqn:E.
    + exfalso. assert (H' : details id w = (w1, Ok a)) by exact H.
      rewrite H' in Hnone. injection Hnone as -> ->.
      exact (details_try_not_None _ _ session_get BeautifulSoup id w w' E).
    + now exists w1, e.
Qed.

End FetchedPages.

(** ** The theorems at concrete pages and servers *)

(** A server that times out, with a standard output that takes the line:
    the search returns the empty list and the detail lookup returns [None],
    each after one printed line. *)
Lemma C1_witness_timeout :
  search_inmates (Examples.serve (Raise Examples.timeout))
    (Examples.serve_post (Raise Examples.timeout)) Examples.parse_ok
    Examples.stdout_ok (lit "DOE") [] [] Examples.start
  = (world 1 [lit "Search error: Read timed out."], Ok [])
  /\ get_inmate_details (Examples.serve (Raise Examples.timeout))
       Examples.parse_ok Examples.stdout_ok (lit "4711") Examples.start
     = (world 1 [lit "Detail error: Read timed out."], Ok None).
Proof.
  destruct (C1_caught_unless_print_fails_or_not_Exception _ _
              (Examples.serve (Raise Examples.timeout))
              (Examples.serve_post (Raise Examples.timeout))
              Examples.parse_ok Examples.stdout_ok)
    as (Hsearch & _ & Hdetails & _).
  split.
  - apply (Hsearch _ _ _ Examples.start (world 1 []) Examples.timeout);
      reflexivity.
  - apply (Hdetails _ Examples.start (world 1 []) Examples.timeout);
      reflexivity.
Defined.

(** C1, as stated, fails.  With a server that times out and a standard
    output that is broken, the exception of the GET is caught but the
    [print] of the handler raises, and that exception leaves
    [search_inmates] and [get_inmate_details]: neither returns.  And a
    [KeyboardInterrupt] raised during the GET is not caught at all. *)
Lemma C1_counterexample_broken_stdout :
  search_inmates (Examples.serve (Raise Examples.timeout))
    (Examples.serve_post (Raise Examples.timeout)) Examples.parse_ok
    Examples.stdout_broken (lit "DOE") [] [] Examples.start
  = (world 1 [], Raise Examples.broken_pipe)
  /\ get_inmate_details (Examples.serve (Raise Examples.timeout))
       Examples.parse_ok Examples.stdout_broken (lit "4711") Examples.start
     = (world 1 [], Raise Examples.broken_pipe)
  /\ search_inmates (Examples.serve (Raise Examples.keyboard_interrupt))
       (Examples.serve_post (Raise Examples.timeout)) Examples.parse_ok
       Examples.stdout_ok (lit "DOE") [] [] Examples.start
     = (world 1 [], Raise Examples.keyboard_interrupt).
Proof.
  repeat split.
Qed.

(** The county's page: the table is found by its id; the page whose table
    has the id "grid": no table is found. *)
Lemma C2_witness_gridview :
  (exists t,
      results_table (soup_of Examples.page_gridview) = Some t
      /\ _parse_results (soup_of Examples.page_gridview)
         = summaries_of_rows (tl (find_all t (lit "tr") [])))
  /\ results_table Examples.page_id_grid = None
  /\ _parse_results Examples.page_id_grid = [].
Proof.
  split.
  - destruct (descendants Examples.page_gridview) as [|t post] eqn:E;
      [discriminate E|].
    exists t.
    apply (proj1 (C2_results_table_by_GridView_then_class
                    (soup_of Examples.page_gridview)) [] t post).
    + exact E.
    + injection E as <- _. reflexivity.
    + intros x [].
  - apply (proj2 (proj2 (C2_results_table_by_GridView_then_class Examples.page_id_grid))).
    intros x Hx.
    assert (F : forallb (fun x => negb (table_by_id x) && negb (table_by_class x))
                  (descendants (node Examples.page_id_grid)) = true)
      by (vm_compute; reflexivity).
    rewrite forallb_forall in F. specialize (F x Hx).
    apply andb_true_iff in F as [A B]. split; now apply negb_true_iff.
Defined.

(** A page whose only hidden input is [__VIEWSTATE], without a value: the
    entry is the empty string. *)
Lemma C3_witness_viewstate_only :
  In (lit "__VIEWSTATE") token_names
  /\ Dict.get (_get_form_data (soup_of Examples.page_viewstate_only)) (lit "__VIEWSTATE")
     = Some []
  /\ Dict.get (_get_form_data (soup_of Examples.page_viewstate_only))
       (lit "__EVENTVALIDATION") = None.
Proof.
  assert (H1 : In (lit "__VIEWSTATE") token_names) by (now left).
  assert (H3 : In (lit "__EVENTVALIDATION") token_names) by (right; right; now left).
  split; [exact H1|]. split.
  - exact (proj1 (C3_missing_token_is_left_out
                    (soup_of Examples.page_viewstate_only) (lit "__VIEWSTATE") H1)).
  - exact (proj1 (C3_missing_token_is_left_out
                    (soup_of Examples.page_viewstate_only) (lit "__EVENTVALIDATION") H3)).
Defined.

(** The county's page served to a search: one row of three cells, one of
    two; one summary. *)
Lemma C4_witness_one_of_two_rows :
  exists inmates,
    search_inmates (Examples.serve (Ok Examples.page_gridview))
      (Examples.serve_post (Ok Examples.page_gridview)) Examples.parse_ok
      Examples.stdout_ok (lit "DOE") [] [] Examples.start = (world 2 [], Ok inmates)
    /\ map (fun inmate => Dict.get inmate (lit "name")) inmates
       = [Some (lit "DOE, JOHN")]
    /\ List.length inmates = 1.
Proof.
  destruct (find_all (soup_of Examples.page_gridview) (lit "table") [])
    as [|table others] eqn:Et; [discriminate Et|].
  destruct (find_all table (lit "tr") []) as [|header rows] eqn:Er;
    [injection Et as <- _; discriminate Er|].
  destruct (C4_one_summary_per_row_with_three_cells _ _
              (Examples.serve (Ok Examples.page_gridview))
              (Examples.serve_post (Ok Examples.page_gridview)) Examples.parse_ok
              Examples.stdout_ok
              (lit "DOE") [] [] Examples.start 1 Examples.page_gridview
              Examples.page_gridview 2 Examples.page_gridview Examples.page_gridview
              table header rows)
    as (inmates & Hrun & _ & Hnames & Hcount & _); try reflexivity.
  - injection Et as <- _. reflexivity.
  - exact Er.
  - exists inmates. split; [exact Hrun|]. rewrite Hnames, Hcount.
    injection Et as <- _. injection Er as _ <-. split; reflexivity.
Defined.

(** C4, as stated, fails.  A table of a header row and one data row whose
    three cells are a [th] and two [td]: the data row has three cells and
    the search returns no summary.  A table of a header row and one data row
    of three cells, the third holding a table of one row of three cells: the
    search returns two summaries. *)
Lemma C4_counterexample_th_cell_and_nested_table :
  search_inmates (Examples.serve (Ok Examples.page_th_row))
    (Examples.serve_post (Ok Examples.page_th_row)) Examples.parse_ok
    Examples.stdout_ok (lit "DOE") [] [] Examples.start = (world 2 [], Ok [])
  /\ option_map (@List.length summary)
       (match search_inmates (Examples.serve (Ok Examples.page_nested_table))
                (Examples.serve_post (Ok Examples.page_nested_table))
                Examples.parse_ok Examples.stdout_ok (lit "DOE") [] []
                Examples.start with
        | (_, Ok inmates) => Some inmates
        | (_, Raise _) => None
        end) = Some 2.
Proof.
  split; vm_compute; reflexivity.
Qed.


(** A row whose first cell has one link, with the identifier. *)
Lemma C6_witness_one_link :
  exists inmate,
    parse_row Examples.row_one_link = Some inmate
    /\ Dict.get inmate (lit "inmate_id") = Some (lit "4711").
Proof.
  destruct (parse_row Examples.row_one_link) as [inmate|] eqn:E; [|discriminate E].
  exists inmate. split; [reflexivity|].
  destruct (C6_inmate_id_from_first_link Examples.row_one_link inmate E)
    as (cell0 & rest & Hcells & Hid & _).
  refine (eq_trans Hid _).
  injection Hcells as <- _. reflexivity.
Defined.

(** The label of the page with one label has its entry. *)
Lemma C7_witness_name_label :
  Dict.contains (_parse_inmate_details (soup_of Examples.detail_header_two_rows))
    (lit "Name:") = true
  /\ Dict.get (_parse_inmate_details (soup_of Examples.detail_header_two_rows))
       (lit "Name:") = Some (PStr (lit "JOHN DOE")).
Proof.
  pose (soup := soup_of Examples.detail_header_two_rows).
  pose (label := element Examples.name_label
                   [Examples.name_value; Examples.charges_header_two]).
  pose (value := element Examples.name_value [Examples.charges_header_two]).
  destruct (C7_span_labels_with_sibling soup) as [Hin Hval]. split.
  - apply (Hin label value); [now left | reflexivity | reflexivity].
  - apply (Hval [] label [] value); try reflexivity.
    + intros l [].
    + left. vm_compute. discriminate.
Defined.

(** A page without labels and charges gives the empty mapping; a server that
    times out gives [None], and the [try] block raised. *)
Lemma C10_witness_empty_and_timeout :
  get_inmate_details (Examples.serve (Ok Examples.detail_empty)) Examples.parse_ok
    Examples.stdout_ok (lit "4711") Examples.start = (world 1 [], Ok (Some []))
  /\ exists w1 e,
       get_inmate_details_try (Examples.serve (Raise Examples.timeout))
         Examples.parse_ok (lit "4711") Examples.start = (w1, Raise e).
Proof.
  split.
  - apply (proj1 (C10_empty_mapping_is_not_None _ _
                    (Examples.serve (Ok Examples.detail_empty)) Examples.parse_ok
                    Examples.stdout_ok)
             (lit "4711") Examples.start 1 Examples.detail_empty Examples.detail_empty);
      try reflexivity.
    intros x Hx.
    assert (F : forallb (fun x => negb (class_matches_label x) && negb (charges_table x))
                  (descendants Examples.detail_empty) = true)
      by (vm_compute; reflexivity).
    rewrite forallb_forall in F. specialize (F x Hx).
    apply andb_true_iff in F as [A B]. split; now apply negb_true_iff.
  - apply (proj2 (C10_empty_mapping_is_not_None _ _
                    (Examples.serve (Raise Examples.timeout)) Examples.parse_ok
                    Examples.stdout_ok)
             (lit "4711") Examples.start
             (world 1 [lit "Detail error: Read timed out."])).
    reflexivity.
Defined.

(** * Further properties of the code *)

(** ** [_clean_text] *)

Lemma join_words_only_plain_spaces ws c :
  forallb is_word ws = true ->
  In c (join (lit " ") ws) -> isspace c = true -> c = 32%N.
Proof.
  induction ws as [|w ws IH]; [intros _ []|].
  cbn [forallb]. intros H. apply andb_true_iff in H as [Hw Hws].
  assert (Word : In c w -> isspace c = true -> c = 32%N).
  { intros Hin Hc. destruct w as [|x w]; [discriminate|]. cbn [is_word] in Hw.
    rewrite forallb_forall in Hw. specialize (Hw c Hin).
    rewrite Hc in Hw. discriminate. }
  destruct ws as [|w2 rest]; [exact Word|].
  change (join (lit " ") (w :: w2 :: rest))
    with (w ++ lit " " ++ join (lit " ") (w2 :: rest)).
  intros Hin Hc. apply in_app_or in Hin as [Hin|Hin]; [now apply Word|].
  apply in_app_or in Hin as [Hin|Hin]; [|now apply IH].
  destruct Hin as [<-|[]]. reflexivity.
Qed.

(** X1.  Whatever the text, the result of [_clean_text] has no leading and
    no trailing whitespace and no two whitespace characters in a row, and
    the only whitespace character it contains is the plain space: tabs, line
    breaks and no-break spaces never survive. *)
Theorem X1_clean_text_only_single_plain_spaces text :
  normalized (_clean_text text) = true
  /\ forallb (fun c => negb (isspace c) || (c =? 32)%N) (_clean_text text) = true.
Proof.
  split; [apply clean_text_normalized|].
  apply forallb_forall. intros c Hin.
  destruct (isspace c) eqn:Ec; [|reflexivity]. cbn [negb orb].
  apply N.eqb_eq. destruct text as [|x text].
  - revert Ec. cbn in Hin. destruct Hin as [<-|[<-|[<-|[]]]]; discriminate.
  - rewrite clean_text_nonempty in Hin by discriminate.
    exact (join_words_only_plain_spaces _ c (split_words (x :: text)) Hin Ec).
Qed.

(** X2.  On a text that is not empty, [_clean_text] returns the words of the
    text joined by single spaces (the final [strip] changes nothing), and
    splitting the result gives the words of the text back: no word is lost,
    added or reordered. *)
Theorem X2_clean_text_keeps_the_words text :
  text <> [] ->
  _clean_text text = join (lit " ") (split text)
  /\ split (_clean_text text) = split text.
Proof.
  intros Hne. split.
  - now apply clean_text_nonempty.
  - now apply clean_text_keeps_words.
Qed.

Lemma X2_witness_spaces_and_tab :
  lit "  DOE,	JOHN  " <> []
  /\ _clean_text (lit "  DOE,	JOHN  ") = join (lit " ") (split (lit "  DOE,	JOHN  "))
  /\ split (_clean_text (lit "  DOE,	JOHN  ")) = split (lit "  DOE,	JOHN  ").
Proof.
  assert (H : lit "  DOE,	JOHN  " <> []) by discriminate.
  split; [exact H|]. exact (X2_clean_text_keeps_the_words _ H).
Defined.

(** X3.  [_clean_text] returns the empty string exactly on the texts that
    are not empty and hold only whitespace; on every other text a second
    application returns what the first returned. *)
Theorem X3_clean_text_stable_unless_blank text :
  (_clean_text text = [] <-> text <> [] /\ has_visible text = false)
  /\ (text = [] \/ has_visible text = true ->
      _clean_text (_clean_text text) = _clean_text text).
Proof.
  split; [apply clean_text_empty_iff|].
  intros H. apply clean_text_idempotent_unless_empty.
  intros E. apply clean_text_empty_iff in E as [Hne Hv].
  destruct H as [H|H]; [contradiction | congruence].
Qed.

Lemma X3_witness_name :
  (lit " DOE,  JOHN " = [] \/ has_visible (lit " DOE,  JOHN ") = true)
  /\ _clean_text (_clean_text (lit " DOE,  JOHN ")) = _clean_text (lit " DOE,  JOHN ").
Proof.
  assert (H : lit " DOE,  JOHN " = [] \/ has_visible (lit " DOE,  JOHN ") = true)
    by (right; reflexivity).
  split; [exact H|].
  exact (proj2 (X3_clean_text_stable_unless_blank (lit " DOE,  JOHN ")) H).
Defined.

(** ** The pattern of the inmate id *)

Lemma take_digits_maximal s :
  exists rest,
    s = Re.take_digits s ++ rest
    /\ match rest with c :: _ => isdecimal c = false | [] => True end.
Proof.
  induction s as [|c s (rest & Hr & Hm)]; simpl.
  - now exists [].
  - destruct (isdecimal c) eqn:E.
    + exists rest. split; [simpl; now rewrite <- Hr | exact Hm].
    + exists (c :: s). now split.
Qed.

Lemma match_here_maximal s g :
  Re.match_InmateID_here s = Some g ->
  exists rest,
    s = lit "InmateID=" ++ g ++ rest
    /\ match rest with c :: _ => isdecimal c = false | [] => True end.
Proof.
  unfold Re.match_InmateID_here.
  destruct (Re.strip_prefix _ s) as [r|] eqn:E; [|discriminate].
  apply strip_prefix_app in E.
  destruct (take_digits_maximal r) as (rest & Hr & Hm).
  destruct (Re.take_digits r) as [|d ds] eqn:Et; [discriminate|].
  intros H. injection H as <-. exists rest. split; [|exact Hm].
  now rewrite <- Hr.
Qed.

(** X4.  What [re.search(r'InmateID=(\d+)', href)] captures is a non-empty
    string of decimal digits that stands in [href] right after [InmateID=]
    and is not followed by a further digit; and every [href] that holds
    [InmateID=] followed by a digit has a match. *)
Theorem X4_inmate_id_pattern :
  (forall href g,
      Re.search_InmateID href = Some g ->
      g <> [] /\ forallb isdecimal g = true
      /\ exists pre rest,
           href = pre ++ lit "InmateID=" ++ g ++ rest
           /\ match rest with c :: _ => isdecimal c = false | [] => True end)
  /\ (forall pre c rest,
         isdecimal c = true ->
         Re.search_InmateID (pre ++ lit "InmateID=" ++ c :: rest) <> None).
Proof.
  split.
  - intros href g H.
    destruct (search_InmateID_sound href g H) as (Hne & Hd & _).
    split; [exact Hne|]. split; [exact Hd|].
    revert H. induction href as [|c href IH]; cbn [Re.search_InmateID].
    + destruct (Re.match_InmateID_here []) eqn:E; [|discriminate].
      intros H. injection H as ->.
      destruct (match_here_maximal _ _ E) as (rest & Hr & Hm).
      now exists [], rest.
    + destruct (Re.match_InmateID_here (c :: href)) eqn:E.
      * intros H. injection H as ->.
        destruct (match_here_maximal _ _ E) as (rest & Hr & Hm).
        now exists [], rest.
      * intros H. destruct (IH H) as (pre & rest & -> & Hm).
        now exists (c :: pre), rest.
  - intros pre c rest Hc.
    destruct (search_InmateID_complete pre c rest Hc) as [g ->]. discriminate.
Qed.

Lemma X4_witness_href :
  Re.search_InmateID (lit "InmateDetail.aspx?InmateID=4711&tab=1") = Some (lit "4711")
  /\ lit "4711" <> [] /\ forallb isdecimal (lit "4711") = true
  /\ Re.search_InmateID (lit "x?" ++ lit "InmateID=" ++ 52%N :: lit "7") <> None.
Proof.
  assert (H : Re.search_InmateID (lit "InmateDetail.aspx?InmateID=4711&tab=1")
              = Some (lit "4711")) by reflexivity.
  split; [exact H|].
  destruct (proj1 X4_inmate_id_pattern _ _ H) as (Hne & Hd & _).
  split; [exact Hne|]. split; [exact Hd|].
  apply (proj2 X4_inmate_id_pattern (lit "x?") 52%N (lit "7")). reflexivity.
Defined.

(** ** The summary of a row *)

Lemma attach_keeps_other cells base k :
  k <> lit "inmate_id" ->
  Dict.get (attach_inmate_id cells base) k = Dict.get base k.
Proof.
  intros Hk. unfold attach_inmate_id.
  destruct cells as [|cell0 rest]; [reflexivity|].
  destruct (find cell0 (lit "a") []) as [link|]; [|reflexivity].
  destruct (Dict.get (tag_attrs link) (lit "href")) as [href|]; [|reflexivity].
  destruct (Re.search_InmateID href) as [g|]; [|reflexivity].
  apply get_set_other. congruence.
Qed.

Lemma set_new_key {V} (d : Dict.dict V) k v :
  Dict.get d k = None -> Dict.set d k v = d ++ [(k, v)].
Proof.
  induction d as [|[k0 v0] d IH]; simpl; [reflexivity|].
  destruct (str_eqb k k0); [discriminate|]. intros H. now rewrite IH.
Qed.

(** X5.  A row gives a summary exactly when it has at least three [td]
    cells.  The summary's name, booking number and booking date are then the
    cleaned texts of the first three cells; age, gender and race are the
    cleaned texts of the fourth, fifth and sixth cell, each replaced by the
    sentinel when the row has no such cell; facility and source are the two
    constants.  The inmate-id step changes none of these fields. *)
Theorem X5_summary_fields_by_position row inmate :
  parse_row row = Some inmate ->
  exists c0 c1 c2 rest,
    find_all row (lit "td") [] = c0 :: c1 :: c2 :: rest
    /\ Dict.get inmate (lit "name") = Some (_clean_text (text c0))
    /\ Dict.get inmate (lit "booking_number") = Some (_clean_text (text c1))
    /\ Dict.get inmate (lit "booking_date") = Some (_clean_text (text c2))
    /\ Dict.get inmate (lit "age")
       = Some (match nth_error rest 0 with
               | Some c => _clean_text (text c) | None => lit "N/A" end)
    /\ Dict.get inmate (lit "gender")
       = Some (match nth_error rest 1 with
               | Some c => _clean_text (text c) | None => lit "N/A" end)
    /\ Dict.get inmate (lit "race")
       = Some (match nth_error rest 2 with
               | Some c => _clean_text (text c) | None => lit "N/A" end)
    /\ Dict.get inmate (lit "facility") = Some (lit "Sedgwick County Jail")
    /\ Dict.get inmate (lit "source") = Some (lit "sedgwick_county").
Proof.
  unfold parse_row.
  destruct (find_all row (lit "td") []) as [|c0 [|c1 [|c2 rest]]] eqn:E;
    try discriminate.
  cbn [List.length Nat.leb]. intros H. injection H as <-.
  exists c0, c1, c2, rest. split; [reflexivity|].
  destruct (find c0 (lit "a") []) as [link|];
    [destruct (Dict.get (tag_attrs link) (lit "href")) as [href|];
     [destruct (Re.search_InmateID href)|]|];
    repeat apply conj; reflexivity.
Qed.

Lemma X5_witness_three_cells :
  exists inmate,
    parse_row Examples.row_one_link = Some inmate
    /\ Dict.get inmate (lit "name") = Some (lit "DOE, JOHN")
    /\ Dict.get inmate (lit "booking_date") = Some (lit "01/02/2024")
    /\ Dict.get inmate (lit "age") = Some (lit "N/A").
Proof.
  destruct (parse_row Examples.row_one_link) as [inmate|] eqn:E; [|discriminate E].
  exists inmate. split; [reflexivity|].
  destruct (X5_summary_fields_by_position Examples.row_one_link inmate E)
    as (c0 & c1 & c2 & rest & Hcells & Hname & _ & Hdate & Hage & _).
  injection Hcells as <- <- <- <-.
  split; [exact Hname|]. split; [exact Hdate | exact Hage].
Defined.

(** X6.  Every summary has the same eight keys in the same order, followed
    by [inmate_id] when, and only when, the first link of the first cell
    gave an id: no other key ever appears and none is missing. *)
Theorem X6_summary_keys row inmate :
  parse_row row = Some inmate ->
  map fst inmate
  = [ lit "name"; lit "booking_number"; lit "booking_date"; lit "age";
      lit "gender"; lit "race"; lit "facility"; lit "source" ]
    ++ (if Dict.contains inmate (lit "inmate_id") then [lit "inmate_id"] else []).
Proof.
  unfold parse_row. destruct (3 <=? _); [|discriminate].
  intros H. injection H as <-.
  set (cells := find_all row (lit "td") []).
  unfold attach_inmate_id, Dict.contains.
  destruct cells as [|cell0 rest]; [reflexivity|].
  destruct (find cell0 (lit "a") []) as [link|]; [|reflexivity].
  destruct (Dict.get (tag_attrs link) (lit "href")) as [href|]; [|reflexivity].
  destruct (Re.search_InmateID href) as [g|]; [|reflexivity].
  rewrite get_set_same. rewrite set_new_key by reflexivity.
  rewrite map_app. reflexivity.
Qed.

Lemma X6_witness_keys_with_id :
  exists inmate,
    parse_row Examples.row_one_link = Some inmate
    /\ map fst inmate
       = [ lit "name"; lit "booking_number"; lit "booking_date"; lit "age";
           lit "gender"; lit "race"; lit "facility"; lit "source";
           lit "inmate_id" ].
Proof.
  destruct (parse_row Examples.row_one_link) as [inmate|] eqn:E; [|discriminate E].
  exists inmate. split; [reflexivity|].
  refine (eq_trans (X6_summary_keys Examples.row_one_link inmate E) _).
  injection E as <-. reflexivity.
Defined.

Lemma in_summaries_of_rows rows inmate :
  In inmate (summaries_of_rows rows) ->
  exists row, In row rows /\ parse_row row = Some inmate.
Proof.
  unfold summaries_of_rows. intros H. apply in_flat_map in H as (row & Hrow & Hin).
  exists row. split; [exact Hrow|].
  destruct (parse_row row) as [i|]; [|destruct Hin].
  destruct Hin as [->|[]]. reflexivity.
Qed.

(** X7.  Every field of every summary that [_parse_results] returns is free
    of leading, trailing and doubled whitespace, whatever the document. *)
Theorem X7_summaries_are_normalized soup inmate k v :
  In inmate (_parse_results soup) ->
  In (k, v) inmate ->
  normalized v = true.
Proof.
  intros Hin Hkv. unfold _parse_results in Hin.
  destruct (results_table soup) as [table|]; [|destruct Hin].
  rewrite rows_loop in Hin. cbn [app] in Hin.
  apply in_summaries_of_rows in Hin as (row & _ & Hrow).
  exact (summary_fields_normalized row inmate Hrow k v Hkv).
Qed.

Lemma X7_witness_gridview :
  exists inmate,
    In inmate (_parse_results (soup_of Examples.page_gridview))
    /\ In (lit "name", lit "DOE, JOHN") inmate
    /\ normalized (lit "DOE, JOHN") = true.
Proof.
  assert (E : exists inmate l,
             _parse_results (soup_of Examples.page_gridview) = inmate :: l)
    by (vm_compute; eauto).
  destruct E as (inmate & l & E). exists inmate.
  assert (Hin : In inmate (_parse_results (soup_of Examples.page_gridview)))
    by (rewrite E; now left).
  assert (Hname : In (lit "name", lit "DOE, JOHN") inmate)
    by (vm_compute in E; injection E as <- _; now left).
  split; [exact Hin|]. split; [exact Hname|].
  exact (X7_summaries_are_normalized (soup_of Examples.page_gridview) inmate
           (lit "name") (lit "DOE, JOHN") Hin Hname).
Defined.

(** ** The detail mapping *)

Lemma get_set_inv {V} (d : Dict.dict V) k k' v :
  Dict.get (Dict.set d k' v) k <> None -> k = k' \/ Dict.get d k <> None.
Proof.
  destruct (list_eq_dec N.eq_dec k' k) as [->|Hne]; [now left|].
  rewrite get_set_other by exact Hne. now right.
Qed.

Lemma get_in {V} (d : Dict.dict V) k v : Dict.get d k = Some v -> In (k, v) d.
Proof.
  induction d as [|[k0 v0] d IH]; simpl; [discriminate|].
  destruct (str_eqb k k0) eqn:E.
  - apply str_eqb_eq in E. subst k0. intros H. injection H as ->. now left.
  - intros H. right. now apply IH.
Qed.

Lemma labels_loop_sources labels d k :
  Dict.get (fold_left add_label labels d) k <> None ->
  Dict.get d k <> None
  \/ exists label value,
       In label labels /\ find_next_sibling label = Some value
       /\ _clean_text (text label) = k.
Proof.
  revert d. induction labels as [|l labels IH]; intros d; cbn [fold_left].
  - now left.
  - intros H. destruct (IH _ H) as [Hd|(label & value & Hin & Hv & Hk)].
    + unfold add_label in Hd. destruct (find_next_sibling l) as [value|] eqn:Ev.
      * apply get_set_inv in Hd as [->|Hd]; [|now left].
        right. exists l, value. repeat split; trivial. now left.
      * now left.
    + right. exists label, value. repeat split; trivial. now right.
Qed.

Lemma charges_entry soup table :
  find soup (lit "table") [(lit "id", MRegex re_Charges)] = Some table ->
  Dict.get (_parse_inmate_details soup) (lit "charges")
  = Some (PList (map charge_of_row
                   (filter (fun row => match find_all row (lit "td") [] with
                                       | [] => false | _ => true end)
                      (tl (find_all table (lit "tr") []))))).
Proof.
  intros Ht. unfold _parse_inmate_details. rewrite Ht, get_set_same, charges_loop.
  reflexivity.
Qed.

(** X8.  When the page has a table whose id matches "charges", the entry
    under "charges" is a list: one charge string for each row after the
    first that has a [td] cell, in document order (so a table with only its
    first row gives the empty list, and a label whose text is "charges"
    never shows through).  When the page has no such table and no label
    with a sibling cleans to "charges", the mapping has no such entry. *)
Theorem X8_charges_entry soup :
  (forall table,
      find soup (lit "table") [(lit "id", MRegex re_Charges)] = Some table ->
      Dict.get (_parse_inmate_details soup) (lit "charges")
      = Some (PList (map charge_of_row
                       (filter (fun row => match find_all row (lit "td") [] with
                                           | [] => false | _ => true end)
                          (tl (find_all table (lit "tr") []))))))
  /\ (find soup (lit "table") [(lit "id", MRegex re_Charges)] = None ->
      (forall label,
          In label (find_all soup (lit "span") [(lit "class", MRegex re_label)]) ->
          find_next_sibling label <> None ->
          _clean_text (text label) <> lit "charges") ->
      Dict.get (_parse_inmate_details soup) (lit "charges") = None).
Proof.
  split; [apply charges_entry|].
  intros Hnone Hlabels. unfold _parse_inmate_details. rewrite Hnone.
  now rewrite labels_loop_other.
Qed.

Lemma X8_witness_two_charges :
  Dict.get (_parse_inmate_details (soup_of Examples.detail_header_two_rows))
    (lit "charges")
  = Some (PList [lit "THEFT 21-5801"; lit "BURGLARY"])
  /\ Dict.get (_parse_inmate_details Examples.detail_div_label) (lit "charges") = None.
Proof.
  split.
  - destruct (find (soup_of Examples.detail_header_two_rows) (lit "table")
                [(lit "id", MRegex re_Charges)]) as [table|] eqn:Et;
      [|discriminate Et].
    refine (eq_trans
              (proj1 (X8_charges_entry (soup_of Examples.detail_header_two_rows))
                 table Et) _).
    injection Et as <-. reflexivity.
  - apply (proj2 (X8_charges_entry Examples.detail_div_label)).
    + reflexivity.
    + intros label [].
Defined.

(** X9.  Every key of the detail mapping has a source on the page: it is
    "charges" and the page has a charges table, or it is the cleaned text of
    a label [span] that has a following sibling element.  A label without
    such a sibling contributes no key. *)
Theorem X9_detail_keys_have_sources soup k :
  Dict.get (_parse_inmate_details soup) k <> None ->
  (k = lit "charges"
   /\ find soup (lit "table") [(lit "id", MRegex re_Charges)] <> None)
  \/ exists label value,
       In label (find_all soup (lit "span") [(lit "class", MRegex re_label)])
       /\ find_next_sibling label = Some value
       /\ _clean_text (text label) = k.
Proof.
  unfold _parse_inmate_details.
  destruct (find soup (lit "table") _) as [table|] eqn:Et; intros H.
  - apply get_set_inv in H as [->|H].
    + left. split; [reflexivity | discriminate].
    + right. apply labels_loop_sources in H as [H|H]; [now destruct H | exact H].
  - right. apply labels_loop_sources in H as [H|H]; [now destruct H | exact H].
Qed.

Lemma X9_witness_name_key :
  Dict.get (_parse_inmate_details (soup_of Examples.detail_header_two_rows))
    (lit "Name:") <> None
  /\ ((lit "Name:" = lit "charges"
       /\ find (soup_of Examples.detail_header_two_rows) (lit "table")
            [(lit "id", MRegex re_Charges)] <> None)
      \/ exists label value,
           In label (find_all (soup_of Examples.detail_header_two_rows) (lit "span")
                       [(lit "class", MRegex re_label)])
           /\ find_next_sibling label = Some value
           /\ _clean_text (text label) = lit "Name:").
Proof.
  assert (H : Dict.get (_parse_inmate_details (soup_of Examples.detail_header_two_rows))
                (lit "Name:") <> None) by discriminate.
  split; [exact H|].
  exact (X9_detail_keys_have_sources (soup_of Examples.detail_header_two_rows)
           (lit "Name:") H).
Defined.

(** X10.  Every label entry of the detail mapping is clean on both sides:
    the key and the value have no leading, trailing or doubled
    whitespace. *)
Theorem X10_label_entries_are_normalized soup k v :
  Dict.get (_parse_inmate_details soup) k = Some (PStr v) ->
  normalized k = true /\ normalized v = true.
Proof.
  intros H. apply get_in in H. exact (detail_values_normalized soup k v H).
Qed.

Lemma X10_witness_name_value :
  Dict.get (_parse_inmate_details (soup_of Examples.detail_header_two_rows))
    (lit "Name:") = Some (PStr (lit "JOHN DOE"))
  /\ normalized (lit "Name:") = true /\ normalized (lit "JOHN DOE") = true.
Proof.
  assert (H : Dict.get (_parse_inmate_details (soup_of Examples.detail_header_two_rows))
                (lit "Name:") = Some (PStr (lit "JOHN DOE"))) by reflexivity.
  split; [exact H|].
  exact (X10_label_entries_are_normalized
           (soup_of Examples.detail_header_two_rows) _ _ H).
Defined.

(** X11.  When no cell of the charges rows holds only whitespace (each cell
    is empty or has a visible character), every charge string of the
    mapping is free of leading, trailing and doubled whitespace. *)
Theorem X11_charges_normalized_without_blank_cells soup table charges :
  find soup (lit "table") [(lit "id", MRegex re_Charges)] = Some table ->
  (forall row cell,
      In row (tl (find_all table (lit "tr") [])) ->
      In cell (find_all row (lit "td") []) ->
      text cell = [] \/ has_visible (text cell) = true) ->
  Dict.get (_parse_inmate_details soup) (lit "charges") = Some (PList charges) ->
  forallb normalized charges = true.
Proof.
  intros Ht Hcells Hget. rewrite (charges_entry soup table Ht) in Hget.
  injection Hget as <-. apply forallb_forall. intros c Hc.
  apply in_map_iff in Hc as (row & <- & Hrow). apply filter_In in Hrow as [Hrow _].
  apply charge_normalized_without_blank_cell. intros cell Hcell E.
  apply clean_text_empty_iff in E as [Hne Hv].
  destruct (Hcells row cell Hrow Hcell) as [H|H]; [contradiction | congruence].
Qed.

Lemma X11_witness_two_charges :
  forallb normalized [lit "THEFT 21-5801"; lit "BURGLARY"] = true.
Proof.
  destruct (find (soup_of Examples.detail_header_two_rows) (lit "table")
              [(lit "id", MRegex re_Charges)]) as [table|] eqn:Et;
    [|discriminate Et].
  apply (X11_charges_normalized_without_blank_cells
           (soup_of Examples.detail_header_two_rows) table _ Et).
  - injection Et as <-. intros row cell Hrow Hcell. right.
    assert (F : forallb
                  (fun row => forallb (fun cell => has_visible (text cell))
                                (find_all row (lit "td") []))
                  (tl (find_all (element Examples.charges_header_two [])
                         (lit "tr") [])) = true)
      by (vm_compute; reflexivity).
    rewrite forallb_forall in F. specialize (F row Hrow).
    rewrite forallb_forall in F. exact (F cell Hcell).
  - reflexivity.
Defined.

(** ** The posted form *)

Ltac lit_neq := let H := fresh in intros H; vm_compute in H; discriminate H.

(** X12.  Whatever the search page contains, the posted form carries the
    three criteria exactly as given, under [txtLastName], [txtFirstName] and
    [txtBookingNumber], and [btnSearch] with the value "Search": nothing
    read from the page can replace them. *)
Theorem X12_posted_form_carries_criteria soup last_name first_name booking_number :
  Dict.get (search_form soup last_name first_name booking_number) (lit "txtLastName")
  = Some last_name
  /\ Dict.get (search_form soup last_name first_name booking_number) (lit "txtFirstName")
     = Some first_name
  /\ Dict.get (search_form soup last_name first_name booking_number)
       (lit "txtBookingNumber") = Some booking_number
  /\ Dict.get (search_form soup last_name first_name booking_number) (lit "btnSearch")
     = Some (lit "Search").
Proof.
  unfold search_form. repeat apply conj.
  - rewrite !get_set_other by lit_neq. apply get_set_same.
  - rewrite !get_set_other by lit_neq. apply get_set_same.
  - rewrite !get_set_other by lit_neq. apply get_set_same.
  - apply get_set_same.
Qed.

(** X13.  The form data read from a page has entries only for hidden inputs
    that the page has, and only under the three token names; the posted form
    has no key besides these three and the four search fields. *)
Theorem X13_form_keys soup k :
  (Dict.get (_get_form_data soup) k <> None ->
   In k token_names /\ token_input soup k <> None)
  /\ (forall last_name first_name booking_number,
         Dict.get (search_form soup last_name first_name booking_number) k <> None ->
         In k (token_names
                 ++ [lit "txtLastName"; lit "txtFirstName";
                     lit "txtBookingNumber"; lit "btnSearch"])).
Proof.
  assert (Data : Dict.get (_get_form_data soup) k <> None ->
                 In k token_names /\ token_input soup k <> None).
  { unfold _get_form_data, token_input.
    destruct (find soup (lit "input") [(lit "name", MString (lit "__VIEWSTATE"))])
      as [i1|] eqn:E1;
      destruct (find soup (lit "input") [(lit "name", MString (lit "__VIEWSTATEGENERATOR"))])
        as [i2|] eqn:E2;
      destruct (find soup (lit "input") [(lit "name", MString (lit "__EVENTVALIDATION"))])
        as [i3|] eqn:E3;
      intros H;
      repeat match type of H with
             | Dict.get (Dict.set _ _ _) _ <> None =>
                 apply get_set_inv in H as [->|H]
             end;
      try (now destruct H);
      (split; [cbn; tauto | congruence]). }
  split; [exact Data|].
  intros ln fn bn H. unfold search_form in H. apply in_or_app.
  repeat match type of H with
         | Dict.get (Dict.set _ _ _) _ <> None =>
             apply get_set_inv in H as [->|H]
         end;
    try (right; cbn; tauto).
  left. now apply Data.
Qed.

Lemma X13_witness_viewstate_only :
  Dict.get (_get_form_data (soup_of Examples.page_viewstate_only)) (lit "__VIEWSTATE")
  <> None
  /\ In (lit "__VIEWSTATE") token_names
  /\ token_input (soup_of Examples.page_viewstate_only) (lit "__VIEWSTATE") <> None.
Proof.
  assert (H : Dict.get (_get_form_data (soup_of Examples.page_viewstate_only))
                (lit "__VIEWSTATE") <> None) by discriminate.
  split; [exact H|].
  exact (proj1 (X13_form_keys (soup_of Examples.page_viewstate_only)
                  (lit "__VIEWSTATE")) H).
Defined.

(** ** What the methods print and request *)

Section MethodEffects.

Variable Session : Type.
Variable Content : Type.
Variable session_get :
  str -> Dict.dict str -> nat -> Session -> Session * Result Content.
Variable session_post :
  str -> Dict.dict str -> Dict.dict str -> nat -> Session -> Session * Result Content.
Variable BeautifulSoup : Content -> Result PageElement.
Variable stdout_write : list str -> str -> Result unit.

Local Abbreviation search :=
  (search_inmates session_get session_post BeautifulSoup stdout_write).
Local Abbreviation search_try := (search_inmates_try session_get session_post BeautifulSoup).
Local Abbreviation details := (get_inmate_details session_get BeautifulSoup stdout_write).
Local Abbreviation details_try := (get_inmate_details_try session_get BeautifulSoup).

Lemma search_try_prints_nothing last_name first_name booking_number w :
  stdout (fst (search_try last_name first_name booking_number w)) = stdout w.
Proof.
  unfold search_inmates_try, bind, http_get, http_post, lift, ret.
  destruct (session_get _ _ _ _) as [s1 [c1|e]]; red_world; [|reflexivity].
  destruct (BeautifulSoup c1) as [d1|e]; [|reflexivity].
  destruct (session_post _ _ _ _ _) as [s2 [c2|e]]; red_world; [|reflexivity].
  destruct (BeautifulSoup c2); reflexivity.
Qed.

Lemma details_try_prints_nothing inmate_id w :
  stdout (fst (details_try inmate_id w)) = stdout w.
Proof.
  unfold get_inmate_details_try, bind, http_get, lift, ret.
  destruct (session_get _ _ _ _) as [s1 [c1|e]]; red_world; [|reflexivity].
  destruct (BeautifulSoup c1); reflexivity.
Qed.

(** X14.  A call whose [try] block succeeds prints nothing and returns the
    value of the block.  When the block raises an exception that derives
    from [Exception], the handler prints one line, "Search error: " or
    "Detail error: " followed by the text of the exception: if the line is
    written, the call returns the empty list, or [None], with that one line
    added to the output; if the write raises, its exception leaves the
    method and the output is unchanged.  An exception that does not derive
    from [Exception] leaves the method with nothing printed. *)
Theorem X14_one_line_per_failure :
  (forall last_name first_name booking_number w,
      match search_try last_name first_name booking_number w with
      | (w1, Ok inmates) =>
          stdout w1 = stdout w
          /\ search last_name first_name booking_number w = (w1, Ok inmates)
      | (w1, Raise e) =>
          stdout w1 = stdout w
          /\ search last_name first_name booking_number w
             = if is_Exception e then
                 match stdout_write (stdout w) (lit "Search error: " ++ exc_str e) with
                 | Ok _ =>
                     (world (session w1)
                        (stdout w ++ [lit "Search error: " ++ exc_str e]), Ok [])
                 | Raise e' => (w1, Raise e')
                 end
               else (w1, Raise e)
      end)
  /\ (forall inmate_id w,
         match details_try inmate_id w with
         | (w1, Ok r) =>
             stdout w1 = stdout w /\ details inmate_id w = (w1, Ok r)
         | (w1, Raise e) =>
             stdout w1 = stdout w
             /\ details inmate_id w
                = if is_Exception e then
                    match stdout_write (stdout w) (lit "Detail error: " ++ exc_str e) with
                    | Ok _ =>
                        (world (session w1)
                           (stdout w ++ [lit "Detail error: " ++ exc_str e]), Ok None)
                    | Raise e' => (w1, Raise e')
                    end
                  else (w1, Raise e)
         end).
Proof.
  split.
  - intros ln fn bn w.
    pose proof (try_except_print _ stdout_write (search_try ln fn bn)
                  (lit "Search error: ") [] w) as H.
    pose proof (search_try_prints_nothing ln fn bn w) as P.
    cbv zeta in H. destruct (search_try ln fn bn w) as [w1 [a|e]]; cbn [fst] in P.
    + split; [exact P | exact H].
    + split; [exact P|]. rewrite <- P.
      destruct (is_Exception e); [|exact H].
      destruct (stdout_write (stdout w1) _); exact H.
  - intros id w.
    pose proof (try_except_print _ stdout_write (details_try id)
                  (lit "Detail error: ") None w) as H.
    pose proof (details_try_prints_nothing id w) as P.
    cbv zeta in H. destruct (details_try id w) as [w1 [a|e]]; cbn [fst] in P.
    + split; [exact P | exact H].
    + split; [exact P|]. rewrite <- P.
      destruct (is_Exception e); [|exact H].
      destruct (stdout_write (stdout w1) _); exact H.
Qed.

(** X15.  When the GET of the search page raises, or the parsing of its
    response does, the search stops there and no POST is made: whatever the
    POST would do, the outcome is the one of the handler alone, with the
    session as the GET left it.  For an exception that derives from
    [Exception] that is the empty list after one printed line, or the
    exception of the [print] when the write fails; any other exception
    leaves the method. *)
Theorem X15_no_post_after_failed_get last_name first_name booking_number w s1 e :
  session_get base_url headers 15 (session w) = (s1, Raise e)
  \/ (exists c1, session_get base_url headers 15 (session w) = (s1, Ok c1)
                 /\ BeautifulSoup c1 = Raise e) ->
  forall post,
    search_inmates session_get post BeautifulSoup stdout_write
      last_name first_name booking_number w
    = if is_Exception e then
        match stdout_write (stdout w) (lit "Search error: " ++ exc_str e) with
        | Ok _ =>
            (world s1 (stdout w ++ [lit "Search error: " ++ exc_str e]), Ok [])
        | Raise e' => (world s1 (stdout w), Raise e')
        end
      else (world s1 (stdout w), Raise e).
Proof.
  intros H post.
  unfold search_inmates, try_except, search_inmates_try, bind, http_get, lift, print.
  destruct H as [H|(c1 & H & Hbs)]; rewrite H; cbn [session stdout];
    [|rewrite Hbs];
    (destruct (is_Exception e); [|reflexivity]);
    cbn [session stdout];
    destruct (stdout_write (stdout w) (lit "Search error: " ++ exc_str e));
    reflexivity.
Qed.

End MethodEffects.

Lemma X15_witness_timeout :
  search_inmates (Examples.serve (Raise Examples.timeout))
    (Examples.serve_post (Ok Examples.page_gridview)) Examples.parse_ok
    Examples.stdout_ok (lit "DOE") [] [] Examples.start
  = (world 1 [lit "Search error: Read timed out."], Ok []).
Proof.
  apply (X15_no_post_after_failed_get _ _
           (Examples.serve (Raise Examples.timeout)) Examples.parse_ok
           Examples.stdout_ok
           (lit "DOE") [] [] Examples.start 1 Examples.timeout).
  left. reflexivity.
Defined.

(** ** The routes *)

Lemma parse_details_empty d :
  (forall x, In x (descendants d) ->
             class_matches_label x = false /\ charges_table x = false) ->
  _parse_inmate_details (soup_of d) = [].
Proof.
  intros Hempty. unfold _parse_inmate_details, find, find_all.
  cbn [node soup_of].
  rewrite (filter_none (search_tag (lit "span") _)).
  - rewrite (filter_none (search_tag (lit "table") _)); [reflexivity|].
    intros x Hx. exact (proj2 (Hempty x Hx)).
  - intros x Hx. apply class_without_label_no_span. exact (proj1 (Hempty x Hx)).
Qed.

Section RouteFacts.

Variable Session : Type.
Variable Content : Type.
Variable session_get :
  str -> Dict.dict str -> nat -> Session -> Session * Result Content.
Variable session_post :
  str -> Dict.dict str -> Dict.dict str -> nat -> Session -> Session * Result Content.
Variable BeautifulSoup : Content -> Result PageElement.
Variable stdout_write : list str -> str -> Result unit.

Local Abbreviation search :=
  (search_inmates session_get session_post BeautifulSoup stdout_write).
Local Abbreviation search_try := (search_inmates_try session_get session_post BeautifulSoup).
Local Abbreviation details := (get_inmate_details session_get BeautifulSoup stdout_write).
Local Abbreviation details_try := (get_inmate_details_try session_get BeautifulSoup).
Local Abbreviation api_search :=
  (App.api_search session_get session_post BeautifulSoup stdout_write).
Local Abbreviation api_details :=
  (App.api_details session_get BeautifulSoup stdout_write).

(** The answers of the two routes. *)
Local Abbreviation search_success inmates :=
  (App.response
     (JObject
        [ (lit "status", JString (lit "success"));
          (lit "count", JNumber (List.length inmates));
          (lit "inmates", JArray (map App.json_of_summary inmates));
          (lit "source", JString (lit "Sedgwick County Sheriff - Official Website")) ])
     200).

Local Abbreviation search_error e :=
  (App.response
     (JObject
        [ (lit "status", JString (lit "error"));
          (lit "message", JString (exc_str e));
          (lit "inmates", JArray []) ])
     500).

Local Abbreviation details_success d :=
  (App.response
     (JObject
        [ (lit "status", JString (lit "success"));
          (lit "details", App.json_of_details d) ])
     200).

Local Abbreviation details_not_found :=
  (App.response
     (JObject
        [ (lit "status", JString (lit "error"));
          (lit "message", JString (lit "Inmate not found")) ])
     404).

Local Abbreviation details_error e :=
  (App.response
     (JObject
        [ (lit "status", JString (lit "error"));
          (lit "message", JString (exc_str e)) ])
     500).

(** The search route, by the outcome of the scraper. *)
Lemma api_search_by_outcome args w :
  App.any [ App.args_get args (lit "last_name") [];
            App.args_get args (lit "first_name") [];
            App.args_get args (lit "booking_number") [] ] = true ->
  api_search args w
  = match search (App.args_get args (lit "last_name") [])
            (App.args_get args (lit "first_name") [])
            (App.args_get args (lit "booking_number") []) w with
    | (w', Ok inmates) => (w', Ok (search_success inmates))
    | (w', Raise e) =>
        if is_Exception e then (w', Ok (search_error e)) else (w', Raise e)
    end.
Proof.
  intros Hany. unfold App.api_search. cbv zeta. rewrite Hany. cbn [negb].
  unfold try_except at 1. unfold bind at 1.
  destruct (search _ _ _ w) as [w' [inmates|e]]; [reflexivity|].
  destruct (is_Exception e); reflexivity.
Qed.

(** The detail route, by the outcome of the scraper. *)
Lemma api_details_by_outcome inmate_id w :
  api_details inmate_id w
  = match details inmate_id w with
    | (w', Ok (Some (entry :: more))) => (w', Ok (details_success (entry :: more)))
    | (w', Ok _) => (w', Ok details_not_found)
    | (w', Raise e) =>
        if is_Exception e then (w', Ok (details_error e)) else (w', Raise e)
    end.
Proof.
  unfold App.api_details. unfold try_except at 1. unfold bind at 1.
  destruct (details inmate_id w) as [w' [[[|entry more]|]|e]]; reflexivity.
Qed.

(** X16.  A search request in which [last_name], [first_name] and
    [booking_number] are all missing or empty is answered 400 with an error
    body and an empty [inmates] list, and the scraper is not called: no
    request goes out and nothing is printed. *)
Theorem X16_search_without_criteria_is_400 args w :
  App.args_get args (lit "last_name") [] = [] ->
  App.args_get args (lit "first_name") [] = [] ->
  App.args_get args (lit "booking_number") [] = [] ->
  api_search args w
  = (w, Ok (App.response
          (JObject
             [ (lit "status", JString (lit "error"));
               (lit "message",
                JString (lit "Please provide at least one search parameter"));
               (lit "inmates", JArray []) ])
          400)).
Proof.
  intros H1 H2 H3. unfold App.api_search. rewrite H1, H2, H3. reflexivity.
Qed.

(** X17.  A search request with at least one criterion is answered 200 with
    status "success", the summaries and their number when the [try] block of
    the search succeeds; it is answered 200 with [count] 0 and no summaries
    when that block raises an exception deriving from [Exception] and the
    error line is printed, so a failed search then looks like a search
    without results.  It is answered 500 when the printing of the error line
    raises such an exception, with the text of that exception as message,
    and in no other case. *)
Theorem X17_search_with_criterion args w :
  App.any [ App.args_get args (lit "last_name") [];
            App.args_get args (lit "first_name") [];
            App.args_get args (lit "booking_number") [] ] = true ->
  (forall w1 inmates,
      search_try (App.args_get args (lit "last_name") [])
        (App.args_get args (lit "first_name") [])
        (App.args_get args (lit "booking_number") []) w = (w1, Ok inmates) ->
      api_search args w = (w1, Ok (search_success inmates)))
  /\ (forall w1 e,
         search_try (App.args_get args (lit "last_name") [])
           (App.args_get args (lit "first_name") [])
           (App.args_get args (lit "booking_number") []) w = (w1, Raise e) ->
         is_Exception e = true ->
         stdout_write (stdout w1) (lit "Search error: " ++ exc_str e) = Ok tt ->
         api_search args w
         = (world (session w1) (stdout w1 ++ [lit "Search error: " ++ exc_str e]),
            Ok (search_success (@nil summary))))
  /\ (forall w1 e e',
         search_try (App.args_get args (lit "last_name") [])
           (App.args_get args (lit "first_name") [])
           (App.args_get args (lit "booking_number") []) w = (w1, Raise e) ->
         is_Exception e = true ->
         stdout_write (stdout w1) (lit "Search error: " ++ exc_str e) = Raise e' ->
         is_Exception e' = true ->
         api_search args w = (w1, Ok (search_error e')))
  /\ (forall w' r,
         api_search args w = (w', Ok r) ->
         App.status_code r = 500 ->
         exists e e',
           search_try (App.args_get args (lit "last_name") [])
             (App.args_get args (lit "first_name") [])
             (App.args_get args (lit "booking_number") []) w = (w', Raise e)
           /\ is_Exception e = true
           /\ stdout_write (stdout w') (lit "Search error: " ++ exc_str e) = Raise e'
           /\ is_Exception e' = true
           /\ r = search_error e').
Proof.
  intros Hany. pose proof (api_search_by_outcome args w Hany) as Hroute.
  set (ln := App.args_get args (lit "last_name") []) in *.
  set (fn := App.args_get args (lit "first_name") []) in *.
  set (bn := App.args_get args (lit "booking_number") []) in *.
  pose proof (try_except_print _ stdout_write (search_try ln fn bn)
                (lit "Search error: ") [] w) as H.
  cbv zeta in H.
  change (try_except (search_try ln fn bn) _ w) with (search ln fn bn w) in H.
  repeat apply conj.
  - intros w1 inmates Htry. rewrite Htry in H. rewrite Hroute, H. reflexivity.
  - intros w1 e Htry Hcls Hw. rewrite Htry, Hcls, Hw in H.
    rewrite Hroute, H. reflexivity.
  - intros w1 e e' Htry Hcls Hw Hcls'. rewrite Htry, Hcls, Hw in H.
    rewrite Hroute, H, Hcls'. reflexivity.
  - intros w' r Hr Hstatus. rewrite Hroute in Hr.
    destruct (search ln fn bn w) as [w2 [inmates|e']] eqn:Es.
    + injection Hr as <- <-. discriminate Hstatus.
    + destruct (is_Exception e') eqn:Ecls'; [|discriminate Hr].
      injection Hr as <- <-.
      destruct (guarded_raises_only _ stdout_write (search_try ln fn bn)
                  (lit "Search error: ") [] w w2 e' Es)
        as [[_ Hno]|(e & Htry & Hcls & Hw)]; [congruence|].
      exists e, e'. now repeat split.
Qed.

(** X18.  A detail request is answered 200 with the mapping when
    [get_inmate_details] returns a mapping that is not empty, and 404
    "Inmate not found" when it returns [None] or the empty mapping; so a
    request that fails with an exception deriving from [Exception] is
    answered 404 when the error line is printed.  It is answered 500 when
    the printing of the error line raises such an exception, with the text
    of that exception as message, and in no other case. *)
Theorem X18_details_200_404_or_500 inmate_id w :
  (forall w' r,
      details inmate_id w = (w', Ok r) ->
      api_details inmate_id w
      = (w', Ok match r with
                | Some (entry :: more) => details_success (entry :: more)
                | _ => details_not_found
                end))
  /\ (forall w1 e,
         details_try inmate_id w = (w1, Raise e) ->
         is_Exception e = true ->
         stdout_write (stdout w1) (lit "Detail error: " ++ exc_str e) = Ok tt ->
         api_details inmate_id w
         = (world (session w1) (stdout w1 ++ [lit "Detail error: " ++ exc_str e]),
            Ok details_not_found))
  /\ (forall w1 e e',
         details_try inmate_id w = (w1, Raise e) ->
         is_Exception e = true ->
         stdout_write (stdout w1) (lit "Detail error: " ++ exc_str e) = Raise e' ->
         is_Exception e' = true ->
         api_details inmate_id w = (w1, Ok (details_error e')))
  /\ (forall w' r,
         api_details inmate_id w = (w', Ok r) ->
         App.status_code r = 500 ->
         exists e e',
           details_try inmate_id w = (w', Raise e)
           /\ is_Exception e = true
           /\ stdout_write (stdout w') (lit "Detail error: " ++ exc_str e) = Raise e'
           /\ is_Exception e' = true
           /\ r = details_error e').
Proof.
  pose proof (api_details_by_outcome inmate_id w) as Hroute.
  pose proof (try_except_print _ stdout_write (details_try inmate_id)
                (lit "Detail error: ") None w) as H.
  cbv zeta in H.
  change (try_except (details_try inmate_id) _ w) with (details inmate_id w) in H.
  repeat apply conj.
  - intros w' r Hd. rewrite Hroute, Hd. destruct r as [[|entry more]|]; reflexivity.
  - intros w1 e Htry Hcls Hw. rewrite Htry, Hcls, Hw in H.
    rewrite Hroute, H. reflexivity.
  - intros w1 e e' Htry Hcls Hw Hcls'. rewrite Htry, Hcls, Hw in H.
    rewrite Hroute, H, Hcls'. reflexivity.
  - intros w' r Hr Hstatus. rewrite Hroute in Hr.
    destruct (details inmate_id w) as [w2 [d|e']] eqn:Es.
    + destruct d as [[|entry more]|]; injection Hr as <- <-; discriminate Hstatus.
    + destruct (is_Exception e') eqn:Ecls'; [|discriminate Hr].
      injection Hr as <- <-.
      destruct (guarded_raises_only _ stdout_write (details_try inmate_id)
                  (lit "Detail error: ") None w w2 e' Es)
        as [[_ Hno]|(e & Htry & Hcls & Hw)]; [congruence|].
      exists e, e'. now repeat split.
Qed.

(** X19.  When the detail page is fetched and parsed but has no label and
    no charges table, the route answers 404 "Inmate not found", as it does
    when the request fails. *)
Theorem X19_page_without_data_is_404 inmate_id w s1 c d :
  session_get (base_url ++ lit "/InmateDetail.aspx?InmateID=" ++ inmate_id)
    headers 15 (session w) = (s1, Ok c) ->
  BeautifulSoup c = Ok d ->
  (forall x, In x (descendants d) ->
             class_matches_label x = false /\ charges_table x = false) ->
  api_details inmate_id w
  = (world s1 (stdout w),
     Ok (App.response
       (JObject
          [ (lit "status", JString (lit "error"));
            (lit "message", JString (lit "Inmate not found")) ])
       404)).
Proof.
  intros Hget Hbs Hempty.
  unfold App.api_details, try_except, bind.
  rewrite (get_inmate_details_ok _ _ session_get BeautifulSoup stdout_write
             inmate_id w s1 c d Hget Hbs).
  rewrite (parse_details_empty d Hempty). reflexivity.
Qed.

End RouteFacts.

Lemma X16_witness_no_arguments :
  App.api_search (Examples.serve (Ok Examples.page_gridview))
    (Examples.serve_post (Ok Examples.page_gridview)) Examples.parse_ok
    Examples.stdout_ok [(lit "last_name", [])] Examples.start
  = (Examples.start,
     Ok (App.response
       (JObject
          [ (lit "status", JString (lit "error"));
            (lit "message",
             JString (lit "Please provide at least one search parameter"));
            (lit "inmates", JArray []) ])
       400)).
Proof.
  apply (X16_search_without_criteria_is_400 _ _
           (Examples.serve (Ok Examples.page_gridview))
           (Examples.serve_post (Ok Examples.page_gridview)) Examples.parse_ok
           Examples.stdout_ok
           [(lit "last_name", [])] Examples.start); reflexivity.
Defined.

(** A search that times out: with a working output the answer is 200 with
    no results, with a broken output it is 500. *)
Lemma X17_witness_timeout_200_and_500 :
  App.api_search (Examples.serve (Raise Examples.timeout))
    (Examples.serve_post (Raise Examples.timeout)) Examples.parse_ok
    Examples.stdout_ok [(lit "last_name", lit "DOE")] Examples.start
  = (world 1 [lit "Search error: Read timed out."],
     Ok (App.response
           (JObject
              [ (lit "status", JString (lit "success"));
                (lit "count", JNumber 0);
                (lit "inmates", JArray []);
                (lit "source",
                 JString (lit "Sedgwick County Sheriff - Official Website")) ])
           200))
  /\ App.api_search (Examples.serve (Raise Examples.timeout))
       (Examples.serve_post (Raise Examples.timeout)) Examples.parse_ok
       Examples.stdout_broken [(lit "last_name", lit "DOE")] Examples.start
     = (world 1 [],
        Ok (App.response
              (JObject
                 [ (lit "status", JString (lit "error"));
                   (lit "message", JString (lit "[Errno 32] Broken pipe"));
                   (lit "inmates", JArray []) ])
              500)).
Proof.
  split.
  - apply (proj1 (proj2 (X17_search_with_criterion _ _
                           (Examples.serve (Raise Examples.timeout))
                           (Examples.serve_post (Raise Examples.timeout))
                           Examples.parse_ok Examples.stdout_ok
                           [(lit "last_name", lit "DOE")] Examples.start eq_refl))
             (world 1 []) Examples.timeout); reflexivity.
  - apply (proj1 (proj2 (proj2 (X17_search_with_criterion _ _
                           (Examples.serve (Raise Examples.timeout))
                           (Examples.serve_post (Raise Examples.timeout))
                           Examples.parse_ok Examples.stdout_broken
                           [(lit "last_name", lit "DOE")] Examples.start eq_refl)))
             (world 1 []) Examples.timeout Examples.broken_pipe); reflexivity.
Defined.

(** A detail request that times out: 404 with a working output, 500 with a
    broken one. *)
Lemma X18_witness_timeout_404_and_500 :
  App.api_details (Examples.serve (Raise Examples.timeout)) Examples.parse_ok
    Examples.stdout_ok (lit "4711") Examples.start
  = (world 1 [lit "Detail error: Read timed out."],
     Ok (App.response
           (JObject
              [ (lit "status", JString (lit "error"));
                (lit "message", JString (lit "Inmate not found")) ])
           404))
  /\ App.api_details (Examples.serve (Raise Examples.timeout)) Examples.parse_ok
       Examples.stdout_broken (lit "4711") Examples.start
     = (world 1 [],
        Ok (App.response
              (JObject
                 [ (lit "status", JString (lit "error"));
                   (lit "message", JString (lit "[Errno 32] Broken pipe")) ])
              500)).
Proof.
  split.
  - apply (proj1 (proj2 (X18_details_200_404_or_500 _ _
                           (Examples.serve (Raise Examples.timeout))
                           Examples.parse_ok Examples.stdout_ok
                           (lit "4711") Examples.start))
             (world 1 []) Examples.timeout); reflexivity.
  - apply (proj1 (proj2 (proj2 (X18_details_200_404_or_500 _ _
                           (Examples.serve (Raise Examples.timeout))
                           Examples.parse_ok Examples.stdout_broken
                           (lit "4711") Examples.start)))
             (world 1 []) Examples.timeout Examples.broken_pipe); reflexivity.
Defined.

Lemma X19_witness_empty_page :
  App.api_details (Examples.serve (Ok Examples.detail_empty)) Examples.parse_ok
    Examples.stdout_ok (lit "4711") Examples.start
  = (world 1 [],
     Ok (App.response
       (JObject
          [ (lit "status", JString (lit "error"));
            (lit "message", JString (lit "Inmate not found")) ])
       404)).
Proof.
  apply (X19_page_without_data_is_404 _ _
           (Examples.serve (Ok Examples.detail_empty)) Examples.parse_ok
           Examples.stdout_ok
           (lit "4711") Examples.start 1 Examples.detail_empty Examples.detail_empty);
    try reflexivity.
  intros x Hx.
  assert (F : forallb (fun x => negb (class_matches_label x) && negb (charges_table x))
                (descendants Examples.detail_empty) = true)
    by (vm_compute; reflexivity).
  rewrite forallb_forall in F. specialize (F x Hx).
  apply andb_true_iff in F as [A B]. split; now apply negb_true_iff.
Defined.
